(** * Shopping cart service: a shallow embedding of [cart.service.ts]

    The development follows [src/services/cart.service.ts], the data
    declarations of [src/models/cart.model.ts] and the error classes of
    [src/errors].  JavaScript numbers are IEEE-754 binary64 values and are
    modelled by Rocq's primitive floats; JavaScript strings are sequences of
    UTF-16 code units.  The service object owns one mutable cart, which is
    threaded through every method as an explicit state; a [throw] leaves the
    state as it was when the exception was raised.  Calls to the logger only
    write log records and are left out. *)

From Stdlib Require Import ZArith QArith Qround Qabs String Ascii Bool Lia.
From Stdlib Require Import DecimalString.
From Stdlib Require Import PrimFloat FloatOps SpecFloat FloatAxioms.
From stdpp Require Import base option list.

Local Open Scope Z_scope.
Local Open Scope list_scope.

(* ================================================================== *)
(** ** JavaScript values *)
(* ================================================================== *)

(** A JavaScript string: its UTF-16 code units. *)
Definition JsString : Type := list N.

(** String literals of the source, written as Rocq strings. *)
Fixpoint js (s : string) : JsString :=
  match s with
  | EmptyString => []
  | String a s' => N_of_ascii a :: js s'
  end.

(** The values a field of a request body can hold at run time: what
    [JSON.parse] produces, and [undefined] for a field that is absent.
    Arrays and plain objects are only ever inspected through [typeof] and
    truthiness, so one constructor stands for all of them. *)
Inductive JsValue : Type :=
  | JsUndefined
  | JsNull
  | JsBoolean (b : bool)
  | JsNumber (x : float)
  | JsStr (s : JsString)
  | JsObject.

(** [typeof v] *)
Definition typeof (v : JsValue) : string :=
  match v with
  | JsUndefined => "undefined"
  | JsNull => "object"
  | JsBoolean _ => "boolean"
  | JsNumber _ => "number"
  | JsStr _ => "string"
  | JsObject => "object"
  end.

(** ToBoolean: [!v] is [negb (ToBoolean v)].  The falsy values are
    [undefined], [null], [false], [+0], [-0], [NaN] and the empty string. *)
Definition ToBoolean (v : JsValue) : bool :=
  match v with
  | JsUndefined => false
  | JsNull => false
  | JsBoolean b => b
  | JsNumber x => negb (is_zero x || is_nan x)
  | JsStr s => match s with [] => false | _ => true end
  | JsObject => true
  end.

(** [v !== undefined] *)
Definition is_defined (v : JsValue) : bool :=
  match v with
  | JsUndefined => false
  | _ => true
  end.

(** A field whose static type is [number], read as the number it holds.
    Validation has checked [typeof] before any such read; the default is
    never reached on a validated input (see [validateAddItemInput_ok_inv]). *)
Definition as_number (v : JsValue) : float :=
  match v with
  | JsNumber x => x
  | _ => nan
  end.

(** A field whose static type is [string], read as the string it holds. *)
Definition as_string (v : JsValue) : JsString :=
  match v with
  | JsStr s => s
  | _ => []
  end.

(* ------------------------------------------------------------------ *)
(** *** Numbers *)

(** The integer [n] as a number; exact for [|n| < 2^53]. *)
Definition number_of_Z (n : Z) : float :=
  match n with
  | Z0 => zero
  | Zpos p => of_uint63 (Uint63Axioms.of_Z (Zpos p))
  | Zneg p => (- of_uint63 (Uint63Axioms.of_Z (Zpos p)))%float
  end.

(** [Math.round(x)]: the integral number closest to [x], ties going towards
    +infinity; [NaN], the infinities, the zeros and integral numbers are
    returned unchanged, and a result of zero keeps the sign of [x].  A
    finite non-zero [x] is [(-1)^s * m * 2^e]; for [e < 0] its magnitude is
    below [2^52], and [floor (x + 1/2)] is computed exactly over [Z]. *)
Definition Math_round (x : float) : float :=
  match Prim2SF x with
  | S754_finite s m e =>
      if (0 <=? e)%Z then x
      else
        let k := (- e)%Z in
        let twice := (if s then - (2 * Zpos m) else 2 * Zpos m)%Z in
        match ((twice + 2 ^ k) / 2 ^ (k + 1))%Z with
        | Z0 => if s then neg_zero else zero
        | n => number_of_Z n
        end
  | _ => x
  end.

(** [Number.isInteger(x)] *)
Definition Number_isInteger (x : float) : bool :=
  match Prim2SF x with
  | S754_zero _ => true
  | S754_finite _ m e => (0 <=? e)%Z || (Zpos m mod 2 ^ (- e) =? 0)%Z
  | _ => false
  end.

(* ------------------------------------------------------------------ *)
(** *** Strings *)

(** White space and line terminators of ECMAScript, as code units: the
    characters [String.prototype.trim] strips. *)
Definition is_white_space (c : N) : bool :=
  match c with
  | 9%N | 10%N | 11%N | 12%N | 13%N | 32%N | 160%N
  | 5760%N | 8232%N | 8233%N | 8239%N | 8287%N | 12288%N | 65279%N => true
  | _ => ((8192 <=? c) && (c <=? 8202))%N
  end.

Fixpoint trimStart (s : JsString) : JsString :=
  match s with
  | [] => []
  | c :: s' => if is_white_space c then trimStart s' else s
  end.

Definition trimEnd (s : JsString) : JsString := reverse (trimStart (reverse s)).

(** [s.trim()] *)
Definition trim (s : JsString) : JsString := trimEnd (trimStart s).

(** [s.slice(0, n)] for [0 <= n]: the first [n] code units. *)
Definition slice0 (n : nat) (s : JsString) : JsString := take n s.

(** [s === ""] *)
Definition is_empty_string (s : JsString) : bool :=
  match s with
  | [] => true
  | _ => false
  end.

(** [Array.prototype.findIndex]: the index of the first element that
    satisfies [p], or [-1]. *)
Fixpoint findIndex {A : Type} (p : A -> bool) (l : list A) : Z :=
  match l with
  | [] => (-1)%Z
  | x :: l' =>
      if p x then 0%Z
      else
        let i := findIndex p l' in
        if (i <? 0)%Z then (-1)%Z else (i + 1)%Z
  end.

(* ================================================================== *)
(** ** Data model ([src/models/cart.model.ts]) *)
(* ================================================================== *)

Module CartItem.
Record t : Type := mk {
  productId : float;
  name : JsString;
  price : float;
  quantity : float
}.

(** [item.quantity = q] *)
Definition set_quantity (q : float) (item : t) : t :=
  mk (productId item) (name item) (price item) q.

(** [item.price = p] *)
Definition set_price (p : float) (item : t) : t :=
  mk (productId item) (name item) p (quantity item).
End CartItem.

Module Cart.
Record t : Type := mk { items : list CartItem.t }.
End Cart.

Module CartResponse.
Record t : Type := mk {
  items : list CartItem.t;
  total : float;
  itemCount : float
}.
End CartResponse.

Module CheckoutResponse.
Record t : Type := mk {
  orderId : JsString;
  items : list CartItem.t;
  total : float;
  itemCount : float;
  checkoutTime : JsString
}.
End CheckoutResponse.

(** The request body of [POST /cart] as it reaches the service: the static
    type promises numbers and a string, but the fields hold whatever the
    caller sent, which is why the service checks [typeof]. *)
Module AddItemInput.
Record t : Type := mk {
  productId : JsValue;
  name : JsValue;
  price : JsValue;
  quantity : JsValue
}.
End AddItemInput.

(** Both fields are optional; an absent field is [undefined]. *)
Module UpdateItemInput.
Record t : Type := mk {
  quantity : JsValue;
  price : JsValue
}.
End UpdateItemInput.

(* ------------------------------------------------------------------ *)
(** *** Errors ([src/errors]) *)

Inductive ErrorClass : Type :=
  | ValidationError
  | NotFoundError
  | BadRequestError.

(** An [AppError]: the class of the object thrown and the fields its
    constructor sets. *)
Record AppError : Type := mkAppError {
  errorClass : ErrorClass;
  message : JsString;
  statusCode : Z;
  isOperational : bool
}.

Definition new_ValidationError (msg : JsString) : AppError :=
  mkAppError ValidationError msg 400 true.

Definition new_NotFoundError (msg : JsString) : AppError :=
  mkAppError NotFoundError msg 404 true.

Definition new_BadRequestError (msg : JsString) : AppError :=
  mkAppError BadRequestError msg 400 true.

(* ------------------------------------------------------------------ *)
(** *** Methods as state transformers *)

(** How a call ends: with a value, or with a thrown error. *)
Inductive Completion (A : Type) : Type :=
  | Return (a : A)
  | Throw (e : AppError).
Arguments Return {A} a.
Arguments Throw {A} e.

(** A method of the service: from the cart before the call to the
    completion and the cart after it. *)
Definition M (A : Type) : Type := Cart.t -> Completion A * Cart.t.

Definition ret {A : Type} (a : A) : M A := fun cart => (Return a, cart).

Definition throw {A : Type} (e : AppError) : M A := fun cart => (Throw e, cart).

Definition bind {A B : Type} (m : M A) (k : A -> M B) : M B :=
  fun cart =>
    match m cart with
    | (Return a, cart') => k a cart'
    | (Throw e, cart') => (Throw e, cart')
    end.

(** A helper that does not touch [this], run inside a method. *)
Definition lift {A : Type} (r : Completion A) : M A := fun cart => (r, cart).

(** Reading [this.cart]. *)
Definition gets {A : Type} (f : Cart.t -> A) : M A := fun cart => (Return (f cart), cart).

(** [this.cart.items = l], and in-place updates of [this.cart.items]. *)
Definition modify_items (f : list CartItem.t -> list CartItem.t) : M unit :=
  fun cart => (Return tt, Cart.mk (f (Cart.items cart))).

Declare Scope js_scope.
Delimit Scope js_scope with js_m.
Notation "'let*' x ':=' m 'in' k" := (bind m (fun x => k))
  (at level 10, x name, m at level 100, k at level 200) : js_scope.
Notation "'do' m 'then' k" := (bind m (fun _ => k))
  (at level 10, m at level 100, k at level 200) : js_scope.

(* ================================================================== *)
(** ** The cart service ([src/services/cart.service.ts]) *)
(* ================================================================== *)

(** What [checkout] reads from its surroundings: the clock ([Date.now()]),
    the random identifier ([uuidv4()]) and the time stamp
    ([new Date().toISOString()]). *)
Module CheckoutEnv.
Record t : Type := mk {
  Date_now : float;
  uuidv4 : JsString;
  toISOString : JsString
}.
End CheckoutEnv.

Section CartService.

(** The conversion of a number to a string that a template literal
    applies (Number::toString of the language, radix 10). *)
Variable Number_toString : float -> JsString.

Local Open Scope js_scope.

(** [constructor()] and [reset()]: [this.cart = { items: [] }] *)
Definition empty_cart : Cart.t := Cart.mk [].

(** [private calculateTotal(): number] *)
Definition calculateTotal (cart : Cart.t) : float :=
  let total :=
    fold_left
      (fun sum item => (sum + CartItem.price item * CartItem.quantity item)%float)
      (Cart.items cart) 0%float in
  (Math_round (total * 100) / 100)%float.

(** [private calculateItemCount(): number] *)
Definition calculateItemCount (cart : Cart.t) : float :=
  fold_left (fun count item => (count + CartItem.quantity item)%float)
    (Cart.items cart) 0%float.

(** [private findItemIndex(productId: number): number] *)
Definition findItemIndex (cart : Cart.t) (productId : float) : Z :=
  findIndex (fun item => (CartItem.productId item =? productId)%float)
    (Cart.items cart).

(** [private validateAddItemInput(input: AddItemInput): void] *)
Definition validateAddItemInput (input : AddItemInput.t) : Completion unit :=
  if negb (ToBoolean (AddItemInput.productId input))
     || negb (String.eqb (typeof (AddItemInput.productId input)) "number")
  then Throw (new_ValidationError (js "productId is required and must be a number"))
  else if negb (ToBoolean (AddItemInput.name input))
          || negb (String.eqb (typeof (AddItemInput.name input)) "string")
          || is_empty_string (trim (as_string (AddItemInput.name input)))
  then Throw (new_ValidationError (js "name is required and must be a non-empty string"))
  else if negb (String.eqb (typeof (AddItemInput.price input)) "number")
          || (as_number (AddItemInput.price input) <=? 0)%float
  then Throw (new_ValidationError (js "price must be greater than 0"))
  else if negb (String.eqb (typeof (AddItemInput.quantity input)) "number")
          || (as_number (AddItemInput.quantity input) <? 1)%float
          || negb (Number_isInteger (as_number (AddItemInput.quantity input)))
  then Throw (new_ValidationError (js "quantity must be at least 1 and must be an integer"))
  else Return tt.

(** [private validateUpdateInput(input: UpdateItemInput): void] *)
Definition validateUpdateInput (input : UpdateItemInput.t) : Completion unit :=
  if negb (is_defined (UpdateItemInput.quantity input))
     && negb (is_defined (UpdateItemInput.price input))
  then Throw (new_ValidationError (js "At least one field (quantity or price) must be provided"))
  else if is_defined (UpdateItemInput.quantity input)
          && (negb (String.eqb (typeof (UpdateItemInput.quantity input)) "number")
              || (as_number (UpdateItemInput.quantity input) <? 1)%float
              || negb (Number_isInteger (as_number (UpdateItemInput.quantity input))))
  then Throw (new_ValidationError (js "quantity must be at least 1 and must be an integer"))
  else if is_defined (UpdateItemInput.price input)
          && (negb (String.eqb (typeof (UpdateItemInput.price input)) "number")
              || (as_number (UpdateItemInput.price input) <=? 0)%float)
  then Throw (new_ValidationError (js "price must be greater than 0"))
  else Return tt.

(** [getCart(): CartResponse], which reads the cart and never changes it.
    The response is the snapshot at the time of the call: [[...items]]
    copies the array, and the statements below concern the response as it
    is returned. *)
Definition getCart (cart : Cart.t) : CartResponse.t :=
  CartResponse.mk (Cart.items cart) (calculateTotal cart) (calculateItemCount cart).

(** [addItem(input: AddItemInput): CartResponse] *)
Definition addItem (input : AddItemInput.t) : M CartResponse.t :=
  do lift (validateAddItemInput input) then
  let* existingIndex :=
    gets (fun cart => findItemIndex cart (as_number (AddItemInput.productId input))) in
  do (if (existingIndex >=? 0)%Z then
        modify_items
          (alter
             (fun item =>
                CartItem.set_quantity
                  (CartItem.quantity item + as_number (AddItemInput.quantity input))%float
                  item)
             (Z.to_nat existingIndex))
      else
        let newItem :=
          CartItem.mk
            (as_number (AddItemInput.productId input))
            (trim (as_string (AddItemInput.name input)))
            (as_number (AddItemInput.price input))
            (as_number (AddItemInput.quantity input)) in
        modify_items (fun items => items ++ [newItem])) then
  gets getCart.

(** [`Item with productId ${productId} not found in cart`] *)
Definition not_found_message (productId : float) : JsString :=
  js "Item with productId " ++ Number_toString productId ++ js " not found in cart".

(** [updateItem(productId: number, updates: UpdateItemInput): CartResponse] *)
Definition updateItem (productId : float) (updates : UpdateItemInput.t)
  : M CartResponse.t :=
  do lift (validateUpdateInput updates) then
  let* index := gets (fun cart => findItemIndex cart productId) in
  if (index <? 0)%Z then
    throw (new_NotFoundError (not_found_message productId))
  else
    do (if is_defined (UpdateItemInput.quantity updates) then
          modify_items
            (alter
               (CartItem.set_quantity (as_number (UpdateItemInput.quantity updates)))
               (Z.to_nat index))
        else ret tt) then
    do (if is_defined (UpdateItemInput.price updates) then
          modify_items
            (alter
               (CartItem.set_price (as_number (UpdateItemInput.price updates)))
               (Z.to_nat index))
        else ret tt) then
    gets getCart.

(** [removeItem(productId: number): CartResponse]; [splice(index, 1)]
    deletes the element at [index]. *)
Definition removeItem (productId : float) : M CartResponse.t :=
  let* index := gets (fun cart => findItemIndex cart productId) in
  if (index <? 0)%Z then
    throw (new_NotFoundError (not_found_message productId))
  else
    do modify_items (delete (Z.to_nat index)) then
    gets getCart.

(** [clearCart(): CartResponse] *)
Definition clearCart : M CartResponse.t :=
  do modify_items (fun _ => []) then
  gets getCart.

(** [`ORD-${Date.now()}-${uuidv4().slice(0, 8)}`] *)
Definition new_orderId (env : CheckoutEnv.t) : JsString :=
  js "ORD-" ++ Number_toString (CheckoutEnv.Date_now env)
    ++ js "-" ++ slice0 8 (CheckoutEnv.uuidv4 env).

(** [checkout(): CheckoutResponse] *)
Definition checkout (env : CheckoutEnv.t) : M CheckoutResponse.t :=
  let* n := gets (fun cart => length (Cart.items cart)) in
  if (n =? 0)%nat then
    throw (new_BadRequestError (js "Cannot checkout with an empty cart"))
  else
    let* orderSummary :=
      gets (fun cart =>
              CheckoutResponse.mk
                (new_orderId env)
                (Cart.items cart)
                (calculateTotal cart)
                (calculateItemCount cart)
                (CheckoutEnv.toISOString env)) in
    do modify_items (fun _ => []) then
    ret orderSummary.

(** [reset(): void] *)
Definition reset : M unit := fun _ => (Return tt, empty_cart).

(* ---------------------------------------------------------------- *)
(** *** Sequences of calls *)

(** One call of a public method, with its arguments. *)
Inductive Operation : Type :=
  | OpGetCart
  | OpAddItem (input : AddItemInput.t)
  | OpUpdateItem (productId : float) (updates : UpdateItemInput.t)
  | OpRemoveItem (productId : float)
  | OpClearCart
  | OpCheckout (env : CheckoutEnv.t).

(** The cart after one call, whether the call returned or threw. *)
Definition step (cart : Cart.t) (op : Operation) : Cart.t :=
  match op with
  | OpGetCart => cart
  | OpAddItem input => snd (addItem input cart)
  | OpUpdateItem productId updates => snd (updateItem productId updates cart)
  | OpRemoveItem productId => snd (removeItem productId cart)
  | OpClearCart => snd (clearCart cart)
  | OpCheckout env => snd (checkout env cart)
  end.

(** The cart after a sequence of calls on a new service object. *)
Definition run (ops : list Operation) : Cart.t := fold_left step ops empty_cart.

End CartService.


(* ================================================================== *)
(** ** The HTTP layer: controllers, routes and the error handler *)
(* ================================================================== *)

(** The integer [n] as a number: the nearest binary64 value, ties to even. *)
Definition number_of_integer (n : Z) : float :=
  SF2Prim (binary_normalize prec emax n 0 false).

(** The value of a decimal digit, if the code unit is one. *)
Definition digit_value (c : N) : option Z :=
  if ((48 <=? c) && (c <=? 57))%N then Some (Z.of_N c - 48)%Z else None.

(** The integer written by the longest prefix of decimal digits. *)
Fixpoint digits_value (s : JsString) (acc : Z) : Z :=
  match s with
  | [] => acc
  | c :: s' =>
      match digit_value c with
      | Some d => digits_value s' (10 * acc + d)%Z
      | None => acc
      end
  end.

Definition starts_with_digit (s : JsString) : bool :=
  match s with
  | c :: _ => match digit_value c with Some _ => true | None => false end
  | [] => false
  end.

(** [parseInt(s, 10)]: leading white space is skipped, one sign is read,
    then the longest prefix of decimal digits; [NaN] when there is no
    digit.  The value is the nearest number to the integer read (an engine
    may drop digits after the 20th significant one; here none is). *)
Definition parseInt10 (s : JsString) : float :=
  let trimmed := trimStart s in
  let negative := match trimmed with 45%N :: _ => true | _ => false end in
  let digits :=
    match trimmed with
    | 45%N :: rest => rest
    | 43%N :: rest => rest
    | _ => trimmed
    end in
  if starts_with_digit digits then
    let mathInt := digits_value digits 0 in
    if (mathInt =? 0)%Z then (if negative then neg_zero else zero)
    else number_of_integer (if negative then - mathInt else mathInt)%Z
  else nan.

(** An error as the error handler receives it: an [AppError], or any
    other [Error] with its message. *)
Inductive JsError : Type :=
  | AppErrorThrown (e : AppError)
  | OtherError (message : JsString).

(** [error: { message, statusCode }] of [ApiResponse]. *)
Module ApiError.
Record t : Type := mk {
  message : JsString;
  statusCode : Z
}.
End ApiError.

(** The payloads the controllers send as [data]. *)
Inductive ApiData : Type :=
  | CartData (cart : CartResponse.t)
  | OrderData (order : CheckoutResponse.t).

(** [ApiResponse<T>]; an optional field that is not set is [None]. *)
Module ApiResponse.
Record t : Type := mk {
  success : bool;
  message : option JsString;
  data : option ApiData;
  error : option ApiError.t
}.
End ApiResponse.

(** A response as a handler sends it: the status and the object it passes
    to [res.status(code).json(body)]. *)
Module HttpResponse.
Record t : Type := mk {
  status : Z;
  json : ApiResponse.t
}.
End HttpResponse.

(** [req.body] as the controllers destructure it: the four fields they
    read, [undefined] for a field the body does not have. *)
Module RequestBody.
Record t : Type := mk {
  productId : JsValue;
  name : JsValue;
  price : JsValue;
  quantity : JsValue
}.
End RequestBody.

(** What a controller reads of a request: [req.params.productId], and
    [req.body], which is [None] when it is [undefined] or [null]. *)
Module Request.
Record t : Type := mk {
  params_productId : JsString;
  body : option RequestBody.t
}.
End Request.

(** How a controller ends: it has sent a response, or its promise is
    rejected with an error. *)
Inductive Outcome : Type :=
  | Sent (response : HttpResponse.t)
  | Rejected (err : JsError).

(** How a request arrives at a route of the application: with the
    middleware before the controller done ([express.json()] has set
    [req.body], the router has decoded the parameter), or with the message
    of the error such a middleware raised. *)
Inductive Arrival : Type :=
  | ReachesController (req : Request.t)
  | MiddlewareError (message : JsString).

(** The routes of the cart router. *)
Inductive Route : Type :=
  | GET_cart
  | POST_cart
  | PUT_cart_productId
  | DELETE_cart_productId
  | DELETE_cart
  | POST_cart_checkout.

Section HttpLayer.

Variable Number_toString : float -> JsString.

(** The message of the [TypeError] that destructuring [undefined] throws;
    its wording is the engine's. *)
Variable TypeError_message : JsString.

(** A controller: from the request and the cart of the service to the
    outcome and the cart afterwards. *)
Definition Controller : Type := Request.t -> Cart.t -> Outcome * Cart.t.

(** A call of the service inside a controller, followed by
    [res.status(code).json({ success: true, message, data })]; an error the
    service throws rejects the promise of the controller. *)
Definition respond {A : Type} (code : Z) (msg : option JsString) (wrap : A -> ApiData)
    (call : M A) : Cart.t -> Outcome * Cart.t :=
  fun cart =>
    match call cart with
    | (Return a, cart') =>
        (Sent (HttpResponse.mk code (ApiResponse.mk true msg (Some (wrap a)) None)), cart')
    | (Throw e, cart') => (Rejected (AppErrorThrown e), cart')
    end.

(** [GET /cart] *)
Definition getCart_controller : Controller :=
  fun _req => respond 200 None CartData (gets getCart).

(** [POST /cart] *)
Definition addItem_controller : Controller :=
  fun req =>
    match Request.body req with
    | None => fun cart => (Rejected (OtherError TypeError_message), cart)
    | Some body =>
        respond 201 (Some (js "Item added to cart")) CartData
          (addItem (AddItemInput.mk (RequestBody.productId body) (RequestBody.name body)
                      (RequestBody.price body) (RequestBody.quantity body)))
    end.

(** [PUT /cart/:productId] *)
Definition updateItem_controller : Controller :=
  fun req =>
    let productId := parseInt10 (Request.params_productId req) in
    match Request.body req with
    | None => fun cart => (Rejected (OtherError TypeError_message), cart)
    | Some body =>
        respond 200 (Some (js "Item updated")) CartData
          (updateItem Number_toString productId
             (UpdateItemInput.mk (RequestBody.quantity body) (RequestBody.price body)))
    end.

(** [DELETE /cart/:productId] *)
Definition removeItem_controller : Controller :=
  fun req =>
    let productId := parseInt10 (Request.params_productId req) in
    respond 200 (Some (js "Item removed from cart")) CartData
      (removeItem Number_toString productId).

(** [DELETE /cart] *)
Definition clearCart_controller : Controller :=
  fun _req => respond 200 (Some (js "Cart cleared")) CartData clearCart.

(** [POST /cart/checkout] *)
Definition checkout_controller (env : CheckoutEnv.t) : Controller :=
  fun _req =>
    respond 200 (Some (js "Checkout successful")) OrderData (checkout Number_toString env).

(** The global error handler: what it sends for [err].  An error is
    operational when it is an instance of [AppError]. *)
Definition errorHandler (err : JsError) : HttpResponse.t :=
  let statusCode :=
    match err with
    | AppErrorThrown e => statusCode e
    | OtherError _ => 500%Z
    end in
  let message :=
    match err with
    | AppErrorThrown e => message e
    | OtherError _ => js "Internal server error"
    end in
  HttpResponse.mk statusCode
    (ApiResponse.mk false None None (Some (ApiError.mk message statusCode))).

(** The controller mounted on each route of the router. *)
Definition controller_of (env : CheckoutEnv.t) (route : Route) : Controller :=
  match route with
  | GET_cart => getCart_controller
  | POST_cart => addItem_controller
  | PUT_cart_productId => updateItem_controller
  | DELETE_cart_productId => removeItem_controller
  | DELETE_cart => clearCart_controller
  | POST_cart_checkout => checkout_controller env
  end.

(** A request served on a route: [asyncHandler] passes a rejection to
    [next], and the error handler, the last middleware of the application,
    sends the response for it. *)
Definition serve (env : CheckoutEnv.t) (route : Route) (req : Request.t) (cart : Cart.t)
  : HttpResponse.t * Cart.t :=
  match controller_of env route req cart with
  | (Sent response, cart') => (response, cart')
  | (Rejected err, cart') => (errorHandler err, cart')
  end.

(** A request on its way through the application: it reaches the
    controller of its route, or a middleware that runs before the
    controller (the JSON body parser, the decoding of the path parameter)
    fails and passes its error to [next]; that error is not an [AppError],
    and the error handler answers it without the service being called. *)
Definition serve_arrival (env : CheckoutEnv.t) (route : Route) (arrival : Arrival)
    (cart : Cart.t) : HttpResponse.t * Cart.t :=
  match arrival with
  | ReachesController req => serve env route req cart
  | MiddlewareError message => (errorHandler (OtherError message), cart)
  end.

End HttpLayer.

(* ================================================================== *)
(** ** Notions the statements below are phrased with *)
(* ================================================================== *)

(** [t] is [s] without its leading and trailing white space. *)
Definition trimmed_of (s t : JsString) : Prop :=
  exists pre suf,
    s = pre ++ t ++ suf
    /\ Forall (fun c => is_white_space c = true) pre
    /\ Forall (fun c => is_white_space c = true) suf
    /\ (forall c, head t = Some c -> is_white_space c = false)
    /\ (forall c, last t = Some c -> is_white_space c = false).

(** [item] has the product identifier [productId], as [===] decides it. *)
Definition has_productId (productId : float) (item : CartItem.t) : bool :=
  (CartItem.productId item =? productId)%float.

(** [item] is the first line item of [items] with [productId], at index [i]. *)
Definition first_with_productId
    (productId : float) (items : list CartItem.t) (i : nat) (item : CartItem.t) : Prop :=
  items !! i = Some item
  /\ has_productId productId item = true
  /\ forall j other, (j < i)%nat -> items !! j = Some other ->
       has_productId productId other = false.

(** No line item of [items] has [productId]. *)
Definition productId_absent (productId : float) (items : list CartItem.t) : Prop :=
  forall item, item ∈ items -> has_productId productId item = false.

(** The line item [item] after the assignments of [updateItem]. *)
Definition updated (updates : UpdateItemInput.t) (item : CartItem.t) : CartItem.t :=
  CartItem.mk
    (CartItem.productId item)
    (CartItem.name item)
    (if is_defined (UpdateItemInput.price updates)
     then as_number (UpdateItemInput.price updates)
     else CartItem.price item)
    (if is_defined (UpdateItemInput.quantity updates)
     then as_number (UpdateItemInput.quantity updates)
     else CartItem.quantity item).

(** The value of a field after [updateItem]: the number supplied, or the
    old value when the field is absent from the update. *)
Definition supplied (v : JsValue) (old : float) : float :=
  match v with
  | JsNumber x => x
  | _ => old
  end.

(** The sum of a list of numbers as [reduce] computes it: from [0], left to
    right, every addition rounded to the nearest binary64 value. *)
Definition sum_numbers (l : list float) : float :=
  fold_left (fun acc x => (acc + x)%float) l 0%float.

(** [Math.round(x * 100) / 100] *)
Definition round_to_cents (x : float) : float := (Math_round (x * 100) / 100)%float.

(** The value of a finite number as a rational; [NaN] and the infinities
    have none. *)
Definition number_value (x : float) : option Q :=
  match Prim2SF x with
  | S754_zero _ => Some 0%Q
  | S754_finite s m e =>
      Some ((if s then - inject_Z (Zpos m) else inject_Z (Zpos m)) * (2 # 1) ^ e)%Q
  | _ => None
  end.

(** [Σ price × quantity] over the items, in exact arithmetic. *)
Fixpoint exact_total (items : list CartItem.t) : option Q :=
  match items with
  | [] => Some 0%Q
  | item :: items' =>
      match number_value (CartItem.price item),
            number_value (CartItem.quantity item),
            exact_total items' with
      | Some p, Some q, Some rest => Some (p * q + rest)%Q
      | _, _, _ => None
      end
  end.

(** Rounding to 2 decimal places, a half cent going up. *)
Definition round_half_up_cents (q : Q) : Q :=
  (inject_Z (Qfloor (q * 100 + (1 # 2))) / 100)%Q.

(** [t] is a number nearest to the rational [q]: no finite number is
    strictly closer. *)
Definition nearest_number (q : Q) (t : float) : Prop :=
  exists tq,
    number_value t = Some tq
    /\ forall d dq, number_value d = Some dq -> (Qabs (tq - q) <= Qabs (dq - q))%Q.

(** The total of a snapshot as the specification words it: the exact sum
    of price × quantity, rounded half-up to cents, as a number. *)
Definition total_as_specified (items : list CartItem.t) (t : float) : Prop :=
  exists s, exact_total items = Some s /\ nearest_number (round_half_up_cents s) t.

(** The cart holds at most one line item per product identifier. *)
Definition unique_productIds (cart : Cart.t) : Prop :=
  NoDup (CartItem.productId <$> Cart.items cart).

(** No two positions of the cart hold product identifiers that [===]
    identifies. *)
Definition no_two_same_productId (cart : Cart.t) : Prop :=
  forall i j a b,
    Cart.items cart !! i = Some a -> Cart.items cart !! j = Some b -> i <> j ->
    has_productId (CartItem.productId b) a = false.

(** Every product identifier in the cart passed the presence check of
    [addItem]: it is neither a zero nor [NaN]. *)
Definition truthy_productIds (cart : Cart.t) : Prop :=
  Forall (fun item => ToBoolean (JsNumber (CartItem.productId item)) = true)
    (Cart.items cart).

(** A call ends by throwing an error of class [cls] with message [msg],
    the cart left as [cart]. *)
Definition throws_with {A : Type} (cls : ErrorClass) (msg : JsString)
    (result : Completion A * Cart.t) (cart : Cart.t) : Prop :=
  exists e,
    result = (Throw e, cart) /\ errorClass e = cls /\ message e = msg.

(** The conditions under which [validateAddItemInput] and
    [validateUpdateInput] reject a field. *)
Definition productId_rejected (v : JsValue) : Prop :=
  ToBoolean v = false \/ typeof v <> "number"%string.

Definition name_rejected (v : JsValue) : Prop :=
  ToBoolean v = false \/ typeof v <> "string"%string \/ trim (as_string v) = [].

Definition price_rejected (v : JsValue) : Prop :=
  typeof v <> "number"%string \/ (as_number v <=? 0)%float = true.

Definition quantity_rejected (v : JsValue) : Prop :=
  typeof v <> "number"%string
  \/ (as_number v <? 1)%float = true
  \/ Number_isInteger (as_number v) = false.

(** What every reachable cart satisfies. *)
Definition cart_invariant (cart : Cart.t) : Prop :=
  unique_productIds cart /\ truthy_productIds cart.

(** A line item as the service stores it: a product identifier that is
    neither a zero nor [NaN], a name that is not empty and neither starts
    nor ends with white space, and a price for which [price <= 0] is
    false. *)
Definition stored_item_ok (item : CartItem.t) : Prop :=
  ToBoolean (JsNumber (CartItem.productId item)) = true
  /\ CartItem.name item <> []
  /\ (forall c, head (CartItem.name item) = Some c -> is_white_space c = false)
  /\ (forall c, last (CartItem.name item) = Some c -> is_white_space c = false)
  /\ (CartItem.price item <=? 0)%float = false.

(** The string starts, after its leading white space and one sign, with a
    decimal digit: [parseInt] reads an integer from it. *)
Definition has_integer_prefix (s : JsString) : bool :=
  match trimStart s with
  | 45%N :: rest => starts_with_digit rest
  | 43%N :: rest => starts_with_digit rest
  | trimmed => starts_with_digit trimmed
  end.

(** The response is a failure envelope: [success: false] with
    [error: { message, statusCode }], the status code repeated in the body,
    and neither [message] nor [data]. *)
Definition failure_envelope (code : Z) (msg : JsString) (response : HttpResponse.t) : Prop :=
  response
  = HttpResponse.mk code (ApiResponse.mk false None None (Some (ApiError.mk msg code))).

(* ------------------------------------------------------------------ *)
(** *** Concrete values for the examples *)

(** Decimal digits of an integral number.  This agrees with the language's
    conversion on [NaN], the infinities, the zeros and the integers of
    magnitude below [10^21], which is where the examples apply it. *)
Definition integer_toString (x : float) : JsString :=
  match Prim2SF x with
  | S754_nan => js "NaN"
  | S754_zero _ => js "0"
  | S754_infinity s => js (if s then "-Infinity" else "Infinity")
  | S754_finite s m e =>
      js ((if s then "-" else "")
            ++ NilZero.string_of_uint (Pos.to_uint (Z.to_pos (Z.shiftl (Zpos m) e))))
  end.

Definition milk : AddItemInput.t :=
  AddItemInput.mk (JsNumber 1) (JsStr (js "  Milk  ")) (JsNumber 2.5) (JsNumber 2).

Definition bread : AddItemInput.t :=
  AddItemInput.mk (JsNumber 2) (JsStr (js "Bread")) (JsNumber 1.5) (JsNumber 1).

(** The cart after [addItem(milk)]. *)
Definition milk_cart : Cart.t :=
  Cart.mk [CartItem.mk 1 (js "Milk") 2.5 2].

(** The cart after [addItem(milk)] and [addItem(bread)]. *)
Definition milk_bread_cart : Cart.t :=
  Cart.mk [CartItem.mk 1 (js "Milk") 2.5 2; CartItem.mk 2 (js "Bread") 1.5 1].

(** Five pens at 0.251 each. *)
#[warnings="-inexact-float"]
Definition pens : AddItemInput.t :=
  AddItemInput.mk (JsNumber 7) (JsStr (js "Pen")) (JsNumber 0.251) (JsNumber 5).

(** The number nearest to 1.26. *)
#[warnings="-inexact-float"]
Definition number_1_26 : float := 1.26.

(** [milk] with NaN for its [productId]. *)
Definition milk_with_NaN_productId : AddItemInput.t :=
  AddItemInput.mk (JsNumber nan) (JsStr (js "Milk")) (JsNumber 2.5) (JsNumber 2).

(** [milk] without its [productId] field. *)
Definition milk_without_productId : AddItemInput.t :=
  AddItemInput.mk JsUndefined (JsStr (js "Milk")) (JsNumber 2.5) (JsNumber 2).

(** An update that supplies no field, and one that supplies a quantity. *)
Definition no_updates : UpdateItemInput.t := UpdateItemInput.mk JsUndefined JsUndefined.

Definition quantity_5 : UpdateItemInput.t := UpdateItemInput.mk (JsNumber 5) JsUndefined.

(** A [POST /cart] request with the body of [milk], a request without a
    body, and a request for the productId parameter ["abc"]. *)
Definition post_milk : Request.t :=
  Request.mk []
    (Some (RequestBody.mk (JsNumber 1) (JsStr (js "  Milk  ")) (JsNumber 2.5) (JsNumber 2))).

Definition request_without_body : Request.t := Request.mk [] None.

Definition request_for_abc : Request.t := Request.mk (js "abc") None.

Definition an_env : CheckoutEnv.t :=
  CheckoutEnv.mk 1764300000000
    (js "123e4567-e89b-12d3-a456-426614174000")
    (js "2025-11-28T03:20:00.000Z").

(* ================================================================== *)
(** ** Auxiliary lemmas *)
(* ================================================================== *)

(** *** [findIndex] *)

Lemma findIndex_bounds {A : Type} (p : A -> bool) (l : list A) :
  (-1 <= findIndex p l < Z.of_nat (length l))%Z.
Proof.
  induction l as [|x l IH]; simpl; [lia|].
  destruct (p x); [lia|].
  destruct (findIndex p l <? 0)%Z eqn:E; lia.
Qed.

Lemma findIndex_absent {A : Type} (p : A -> bool) (l : list A) :
  (forall x, x ∈ l -> p x = false) -> findIndex p l = (-1)%Z.
Proof.
  induction l as [|x l IH]; intros H; simpl; [reflexivity|].
  rewrite (H x) by (left).
  rewrite IH by (intros y Hy; apply H; right; exact Hy).
  reflexivity.
Qed.

Lemma findIndex_first {A : Type} (p : A -> bool) (l : list A) (i : nat) (x : A) :
  l !! i = Some x -> p x = true ->
  (forall j y, (j < i)%nat -> l !! j = Some y -> p y = false) ->
  findIndex p l = Z.of_nat i.
Proof.
  revert i; induction l as [|a l IH]; intros i Hi Hp Hbefore; [discriminate|].
  destruct i as [|i]; simpl in *.
  - injection Hi as ->. rewrite Hp. reflexivity.
  - rewrite (Hbefore 0%nat a) by (simpl; reflexivity || lia).
    rewrite (IH i Hi Hp).
    + destruct (Z.of_nat i <? 0)%Z eqn:E; lia.
    + intros j y Hj Hy. apply (Hbefore (S j) y); [lia|exact Hy].
Qed.

Lemma findIndex_negative {A : Type} (p : A -> bool) (l : list A) :
  (findIndex p l <? 0)%Z = true -> forall x, x ∈ l -> p x = false.
Proof.
  induction l as [|a l IH]; intros H x Hx; [inversion Hx|].
  simpl in H. destruct (p a) eqn:Ha; [discriminate|].
  destruct (findIndex p l <? 0)%Z eqn:E.
  - inversion Hx; subst; [exact Ha|]. apply IH; [reflexivity|assumption].
  - pose proof (findIndex_bounds p l). lia.
Qed.

Lemma findIndex_found {A : Type} (p : A -> bool) (l : list A) :
  (findIndex p l <? 0)%Z = false ->
  exists x,
    l !! Z.to_nat (findIndex p l) = Some x /\ p x = true
    /\ forall j y, (j < Z.to_nat (findIndex p l))%nat -> l !! j = Some y -> p y = false.
Proof.
  induction l as [|a l IH]; intros H; [discriminate|].
  simpl in *. destruct (p a) eqn:Ha.
  - exists a. simpl. repeat split; [exact Ha|]. intros j y Hj; lia.
  - destruct (findIndex p l <? 0)%Z eqn:E; [discriminate|].
    destruct (IH eq_refl) as (x & Hx & Hpx & Hbefore).
    pose proof (findIndex_bounds p l) as Hb.
    exists x.
    replace (Z.to_nat (findIndex p l + 1)) with (S (Z.to_nat (findIndex p l))) by lia.
    simpl. repeat split; [exact Hx|exact Hpx|].
    intros [|j] y Hj Hy; simpl in Hy.
    + injection Hy as <-. exact Ha.
    + apply (Hbefore j y); [lia|exact Hy].
Qed.

(** *** Updating and deleting by index *)

Lemma alter_as_insert {A : Type} (f : A -> A) (l : list A) (i : nat) (x : A) :
  l !! i = Some x -> alter f i l = <[i := f x]> l.
Proof.
  revert i; induction l as [|a l IH]; intros [|i] H; simpl in *; try discriminate.
  - injection H as ->. reflexivity.
  - f_equal. apply IH. exact H.
Qed.

Lemma delete_as_take_drop {A : Type} (l : list A) (i : nat) :
  delete i l = take i l ++ drop (S i) l.
Proof.
  revert i; induction l as [|a l IH]; intros [|i]; simpl; try reflexivity.
  f_equal. apply IH.
Qed.

(** *** Numbers *)

Lemma number_eqb_refl (x : float) : is_nan x = false -> (x =? x)%float = true.
Proof. unfold is_nan. destruct (x =? x)%float; [reflexivity|discriminate]. Qed.

(** On numbers other than the zeros, [===] is equality of the values. *)
Lemma number_eqb_eq (x y : float) :
  (x =? y)%float = true -> is_zero x = false -> x = y.
Proof.
  unfold is_zero. rewrite !FloatAxioms.eqb_spec.
  intros Hxy Hx. apply Prim2SF_inj.
  change (Prim2SF zero) with (S754_zero false) in Hx.
  unfold SFeqb in *.
  destruct (Prim2SF x) as [sx|sx| |sx mx ex], (Prim2SF y) as [sy|sy| |sy my ey];
    simpl in *; try discriminate;
    destruct sx, sy; simpl in *; try discriminate; try reflexivity;
    destruct (Z.compare ex ey) eqn:E; try discriminate;
    apply Z.compare_eq in E; subst ey;
    destruct (Pos.compare_cont Eq mx my) eqn:Em; try discriminate;
    apply Pos.compare_eq in Em; subst my; reflexivity.
Qed.

Lemma number_eqb_eq_r (x y : float) :
  (x =? y)%float = true -> is_zero y = false -> x = y.
Proof.
  unfold is_zero. rewrite !FloatAxioms.eqb_spec.
  intros Hxy Hy. apply Prim2SF_inj.
  change (Prim2SF zero) with (S754_zero false) in Hy.
  unfold SFeqb in *.
  destruct (Prim2SF x) as [sx|sx| |sx mx ex], (Prim2SF y) as [sy|sy| |sy my ey];
    simpl in *; try discriminate;
    destruct sx, sy; simpl in *; try discriminate; try reflexivity;
    destruct (Z.compare ex ey) eqn:E; try discriminate;
    apply Z.compare_eq in E; subst ey;
    destruct (Pos.compare_cont Eq mx my) eqn:Em; try discriminate;
    apply Pos.compare_eq in Em; subst my; reflexivity.
Qed.

Lemma truthy_number (x : float) :
  ToBoolean (JsNumber x) = true <-> is_zero x = false /\ is_nan x = false.
Proof.
  simpl. destruct (is_zero x), (is_nan x); simpl; intuition discriminate.
Qed.

(** *** [trim] *)

Lemma trimStart_spec (s : JsString) :
  exists pre,
    s = pre ++ trimStart s
    /\ Forall (fun c => is_white_space c = true) pre
    /\ forall c, head (trimStart s) = Some c -> is_white_space c = false.
Proof.
  induction s as [|c s (pre & Heq & Hpre & Hhead)]; simpl.
  - exists []. repeat split; [constructor|discriminate].
  - destruct (is_white_space c) eqn:Hc.
    + exists (c :: pre). repeat split.
      * simpl. f_equal. exact Heq.
      * constructor; assumption.
      * exact Hhead.
    + exists []. repeat split; [constructor|].
      simpl. intros c' [= <-]. exact Hc.
Qed.

Lemma trim_spec (s : JsString) : trimmed_of s (trim s).
Proof.
  unfold trimmed_of, trim, trimEnd.
  destruct (trimStart_spec s) as (pre & Hs & Hpre & Hhead).
  destruct (trimStart_spec (reverse (trimStart s))) as (suf & Hr & Hsuf & Hlast).
  set (u := trimStart s) in *.
  set (v := trimStart (reverse u)) in *.
  exists pre, (reverse suf).
  assert (Hu : u = reverse v ++ reverse suf).
  { rewrite <- (reverse_involutive u), Hr, reverse_app. reflexivity. }
  repeat split.
  - rewrite <- Hu. exact Hs.
  - exact Hpre.
  - apply Forall_forall. intros c Hc. rewrite Forall_forall in Hsuf.
    apply Hsuf. apply elem_of_reverse. exact Hc.
  - intros c Hc. destruct (reverse v) as [|c' w] eqn:Hv; [discriminate|].
    simpl in Hc. injection Hc as <-.
    apply Hhead. rewrite Hu. reflexivity.
  - intros c Hc. rewrite last_reverse in Hc. apply Hlast. exact Hc.
Qed.

(** *** Validation *)

(** An input that passes [validateAddItemInput] holds a truthy number, a
    string that is not blank, a price that is not [<= 0] and an integral
    quantity that is not [< 1]; the reads [as_number] and [as_string] of
    [addItem] therefore return the fields themselves. *)
Lemma validateAddItemInput_ok_inv (input : AddItemInput.t) :
  validateAddItemInput input = Return tt ->
  exists productId name price quantity,
    input = AddItemInput.mk (JsNumber productId) (JsStr name)
              (JsNumber price) (JsNumber quantity)
    /\ ToBoolean (JsNumber productId) = true
    /\ trim name <> []
    /\ (price <=? 0)%float = false
    /\ (quantity <? 1)%float = false
    /\ Number_isInteger quantity = true.
Proof.
  destruct input as [p n pr q]. unfold validateAddItemInput. simpl.
  destruct (ToBoolean p) eqn:Hp; simpl; [|discriminate].
  destruct p as [| |bp|pid|sp|]; simpl; try discriminate.
  destruct (ToBoolean n) eqn:Hn; simpl; [|discriminate].
  destruct n as [| |bn|xn|nm|]; simpl; try discriminate.
  destruct (is_empty_string (trim nm)) eqn:Hnm; [discriminate|].
  destruct pr as [| |bpr|price|spr|]; simpl; try discriminate.
  destruct (price <=? 0)%float eqn:Hprice; [discriminate|].
  destruct q as [| |bq|quantity|sq|]; simpl; try discriminate.
  destruct (quantity <? 1)%float eqn:Hq; simpl; [discriminate|].
  destruct (Number_isInteger quantity) eqn:Hint; simpl; [|discriminate].
  intros _. exists pid, nm, price, quantity.
  repeat split; try assumption.
  intros E. rewrite E in Hnm. discriminate.
Qed.

(** A validation helper only throws validation errors. *)
Lemma validateAddItemInput_throws (input : AddItemInput.t) (e : AppError) :
  validateAddItemInput input = Throw e ->
  errorClass e = ValidationError /\ statusCode e = 400%Z.
Proof.
  unfold validateAddItemInput.
  repeat match goal with
         | |- context [if ?b then _ else _] => destruct b
         end; intros [= <-]; split; reflexivity.
Qed.

Lemma validateUpdateInput_throws (input : UpdateItemInput.t) (e : AppError) :
  validateUpdateInput input = Throw e ->
  errorClass e = ValidationError /\ statusCode e = 400%Z.
Proof.
  unfold validateUpdateInput.
  repeat match goal with
         | |- context [if ?b then _ else _] => destruct b
         end; intros [= <-]; split; reflexivity.
Qed.

Lemma productId_rejected_iff (v : JsValue) :
  productId_rejected v
  <-> negb (ToBoolean v) || negb (String.eqb (typeof v) "number") = true.
Proof.
  unfold productId_rejected.
  destruct (ToBoolean v); destruct (String.eqb_spec (typeof v) "number");
    simpl; intuition congruence.
Qed.

Lemma name_rejected_iff (v : JsValue) :
  name_rejected v
  <-> negb (ToBoolean v) || negb (String.eqb (typeof v) "string")
      || is_empty_string (trim (as_string v)) = true.
Proof.
  unfold name_rejected.
  destruct (ToBoolean v); destruct (String.eqb_spec (typeof v) "string");
    destruct (trim (as_string v)); simpl; intuition congruence.
Qed.

Lemma price_rejected_iff (v : JsValue) :
  price_rejected v
  <-> negb (String.eqb (typeof v) "number") || (as_number v <=? 0)%float = true.
Proof.
  unfold price_rejected.
  destruct (String.eqb_spec (typeof v) "number");
    destruct (as_number v <=? 0)%float; simpl; intuition congruence.
Qed.

Lemma quantity_rejected_iff (v : JsValue) :
  quantity_rejected v
  <-> negb (String.eqb (typeof v) "number") || (as_number v <? 1)%float
      || negb (Number_isInteger (as_number v)) = true.
Proof.
  unfold quantity_rejected.
  destruct (String.eqb_spec (typeof v) "number");
    destruct (as_number v <? 1)%float;
    destruct (Number_isInteger (as_number v)); simpl; intuition congruence.
Qed.

Lemma not_true_iff_false' (b : bool) : ~ b = true <-> b = false.
Proof. destruct b; intuition congruence. Qed.

(** The outcome of [validateAddItemInput], check by check. *)
Lemma validateAddItemInput_cases (input : AddItemInput.t) :
  (productId_rejected (AddItemInput.productId input) ->
   validateAddItemInput input
   = Throw (new_ValidationError (js "productId is required and must be a number")))
  /\ (~ productId_rejected (AddItemInput.productId input) ->
      name_rejected (AddItemInput.name input) ->
      validateAddItemInput input
      = Throw (new_ValidationError (js "name is required and must be a non-empty string")))
  /\ (~ productId_rejected (AddItemInput.productId input) ->
      ~ name_rejected (AddItemInput.name input) ->
      price_rejected (AddItemInput.price input) ->
      validateAddItemInput input
      = Throw (new_ValidationError (js "price must be greater than 0")))
  /\ (~ productId_rejected (AddItemInput.productId input) ->
      ~ name_rejected (AddItemInput.name input) ->
      ~ price_rejected (AddItemInput.price input) ->
      quantity_rejected (AddItemInput.quantity input) ->
      validateAddItemInput input
      = Throw (new_ValidationError
                 (js "quantity must be at least 1 and must be an integer")))
  /\ (~ productId_rejected (AddItemInput.productId input) ->
      ~ name_rejected (AddItemInput.name input) ->
      ~ price_rejected (AddItemInput.price input) ->
      ~ quantity_rejected (AddItemInput.quantity input) ->
      validateAddItemInput input = Return tt).
Proof.
  rewrite productId_rejected_iff, name_rejected_iff, price_rejected_iff,
    quantity_rejected_iff, !not_true_iff_false'.
  unfold validateAddItemInput.
  repeat split; intros; repeat match goal with H : _ = _ |- _ => rewrite H; clear H end;
    reflexivity.
Qed.

(** The outcome of [validateUpdateInput], check by check. *)
Lemma validateUpdateInput_cases (updates : UpdateItemInput.t) :
  (UpdateItemInput.quantity updates = JsUndefined ->
   UpdateItemInput.price updates = JsUndefined ->
   validateUpdateInput updates
   = Throw (new_ValidationError
              (js "At least one field (quantity or price) must be provided")))
  /\ (UpdateItemInput.quantity updates <> JsUndefined ->
      quantity_rejected (UpdateItemInput.quantity updates) ->
      validateUpdateInput updates
      = Throw (new_ValidationError
                 (js "quantity must be at least 1 and must be an integer")))
  /\ (UpdateItemInput.quantity updates = JsUndefined
      \/ ~ quantity_rejected (UpdateItemInput.quantity updates) ->
      UpdateItemInput.price updates <> JsUndefined ->
      price_rejected (UpdateItemInput.price updates) ->
      validateUpdateInput updates
      = Throw (new_ValidationError (js "price must be greater than 0")))
  /\ (UpdateItemInput.quantity updates <> JsUndefined
      \/ UpdateItemInput.price updates <> JsUndefined ->
      UpdateItemInput.quantity updates = JsUndefined
      \/ ~ quantity_rejected (UpdateItemInput.quantity updates) ->
      UpdateItemInput.price updates = JsUndefined
      \/ ~ price_rejected (UpdateItemInput.price updates) ->
      validateUpdateInput updates = Return tt).
Proof.
  rewrite quantity_rejected_iff, price_rejected_iff, !not_true_iff_false'.
  unfold validateUpdateInput.
  assert (Hdef : forall v, is_defined v = false <-> v = JsUndefined).
  { intros v. destruct v; simpl; intuition congruence. }
  assert (Hdef' : forall v, is_defined v = true <-> v <> JsUndefined).
  { intros v. destruct v; simpl; intuition congruence. }
  repeat split.
  - intros Hq Hp. rewrite Hq, Hp. reflexivity.
  - intros Hq Hbad. apply Hdef' in Hq. rewrite Hq, Hbad. reflexivity.
  - intros Hq Hp Hbad. apply Hdef' in Hp. rewrite Hp, Hbad.
    destruct Hq as [Hq|Hq].
    + apply Hdef in Hq. rewrite Hq. reflexivity.
    + rewrite Hq. rewrite andb_false_r.
      destruct (is_defined (UpdateItemInput.quantity updates)); reflexivity.
  - intros Hsome Hq Hp.
    assert (Hfirst : negb (is_defined (UpdateItemInput.quantity updates))
                     && negb (is_defined (UpdateItemInput.price updates)) = false).
    { destruct Hsome as [H|H]; apply Hdef' in H; rewrite H; simpl;
        [reflexivity|apply andb_false_r]. }
    rewrite Hfirst.
    assert (Hsecond : is_defined (UpdateItemInput.quantity updates)
                      && (negb (String.eqb (typeof (UpdateItemInput.quantity updates)) "number")
                          || (as_number (UpdateItemInput.quantity updates) <? 1)%float
                          || negb (Number_isInteger (as_number (UpdateItemInput.quantity updates))))
                      = false).
    { destruct Hq as [H|H]; [apply Hdef in H; rewrite H; reflexivity|rewrite H; apply andb_false_r]. }
    rewrite Hsecond.
    assert (Hthird : is_defined (UpdateItemInput.price updates)
                     && (negb (String.eqb (typeof (UpdateItemInput.price updates)) "number")
                         || (as_number (UpdateItemInput.price updates) <=? 0)%float)
                     = false).
    { destruct Hp as [H|H]; [apply Hdef in H; rewrite H; reflexivity|rewrite H; apply andb_false_r]. }
    rewrite Hthird. reflexivity.
Qed.

(** *** [addItem] on its two paths *)

Lemma findItemIndex_first (cart : Cart.t) (productId : float) (i : nat) (item : CartItem.t) :
  first_with_productId productId (Cart.items cart) i item ->
  findItemIndex cart productId = Z.of_nat i.
Proof.
  intros (Hi & Hp & Hbefore). unfold findItemIndex.
  apply (findIndex_first _ _ i item); assumption.
Qed.

Lemma findItemIndex_absent (cart : Cart.t) (productId : float) :
  productId_absent productId (Cart.items cart) ->
  findItemIndex cart productId = (-1)%Z.
Proof. intros H. unfold findItemIndex. apply findIndex_absent. exact H. Qed.

(** Either some line item has [productId], and then there is a first one,
    or none has. *)
Lemma first_or_absent (productId : float) (items : list CartItem.t) :
  (exists i item, first_with_productId productId items i item)
  \/ productId_absent productId items.
Proof.
  destruct (findIndex (has_productId productId) items <? 0)%Z eqn:E.
  - right. intros item Hitem. exact (findIndex_negative _ _ E item Hitem).
  - left. destruct (findIndex_found _ _ E) as (item & Hi & Hp & Hbefore).
    exists (Z.to_nat (findIndex (has_productId productId) items)), item.
    repeat split; assumption.
Qed.

Lemma present_not_absent (productId : float) (items : list CartItem.t) :
  (exists item, item ∈ items /\ has_productId productId item = true) ->
  exists i item, first_with_productId productId items i item.
Proof.
  intros (item & Hin & Hp).
  destruct (first_or_absent productId items) as [H|H]; [exact H|].
  rewrite (H item Hin) in Hp. discriminate.
Qed.

Lemma addItem_existing (cart : Cart.t) (input : AddItemInput.t) (i : nat) (item : CartItem.t) :
  validateAddItemInput input = Return tt ->
  first_with_productId (as_number (AddItemInput.productId input)) (Cart.items cart) i item ->
  let cart' :=
    Cart.mk (<[i := CartItem.set_quantity
                      (CartItem.quantity item + as_number (AddItemInput.quantity input))%float
                      item]> (Cart.items cart)) in
  addItem input cart = (Return (getCart cart'), cart').
Proof.
  intros Hvalid Hfirst. unfold addItem, bind, lift, gets, modify_items.
  rewrite Hvalid, (findItemIndex_first _ _ _ _ Hfirst).
  replace (Z.of_nat i >=? 0)%Z with true by (symmetry; apply Z.geb_le; lia).
  rewrite Nat2Z.id. cbn [Cart.items].
  destruct Hfirst as (Hi & _).
  rewrite (alter_as_insert _ _ _ _ Hi). reflexivity.
Qed.

Lemma addItem_new (cart : Cart.t) (input : AddItemInput.t) :
  validateAddItemInput input = Return tt ->
  productId_absent (as_number (AddItemInput.productId input)) (Cart.items cart) ->
  let cart' :=
    Cart.mk (Cart.items cart
               ++ [CartItem.mk (as_number (AddItemInput.productId input))
                     (trim (as_string (AddItemInput.name input)))
                     (as_number (AddItemInput.price input))
                     (as_number (AddItemInput.quantity input))]) in
  addItem input cart = (Return (getCart cart'), cart').
Proof.
  intros Hvalid Habsent. unfold addItem, bind, lift, gets, modify_items.
  rewrite Hvalid, (findItemIndex_absent _ _ Habsent). reflexivity.
Qed.

Lemma addItem_invalid (cart : Cart.t) (input : AddItemInput.t) (e : AppError) :
  validateAddItemInput input = Throw e ->
  addItem input cart = (Throw e, cart).
Proof.
  intros Hinvalid. unfold addItem, bind, lift. rewrite Hinvalid. reflexivity.
Qed.

(** *** [updateItem], [removeItem], [clearCart] and [checkout] on each path *)

Section Paths.

Variable Number_toString : float -> JsString.

Lemma updateItem_invalid (cart : Cart.t) (productId : float)
    (updates : UpdateItemInput.t) (e : AppError) :
  validateUpdateInput updates = Throw e ->
  updateItem Number_toString productId updates cart = (Throw e, cart).
Proof.
  intros Hinvalid. unfold updateItem, bind, lift. rewrite Hinvalid. reflexivity.
Qed.

Lemma updateItem_not_found (cart : Cart.t) (productId : float)
    (updates : UpdateItemInput.t) :
  validateUpdateInput updates = Return tt ->
  productId_absent productId (Cart.items cart) ->
  updateItem Number_toString productId updates cart
  = (Throw (new_NotFoundError (not_found_message Number_toString productId)), cart).
Proof.
  intros Hvalid Habsent. unfold updateItem, bind, lift, gets, throw.
  rewrite Hvalid, (findItemIndex_absent _ _ Habsent). reflexivity.
Qed.

Lemma updateItem_found (cart : Cart.t) (productId : float)
    (updates : UpdateItemInput.t) (i : nat) (item : CartItem.t) :
  validateUpdateInput updates = Return tt ->
  first_with_productId productId (Cart.items cart) i item ->
  let cart' := Cart.mk (<[i := updated updates item]> (Cart.items cart)) in
  updateItem Number_toString productId updates cart = (Return (getCart cart'), cart').
Proof.
  intros Hvalid Hfirst. unfold updateItem, bind, lift, gets, modify_items, ret.
  rewrite Hvalid, (findItemIndex_first _ _ _ _ Hfirst).
  replace (Z.of_nat i <? 0)%Z with false by (symmetry; apply Z.ltb_ge; lia).
  rewrite Nat2Z.id. destruct Hfirst as (Hi & _).
  pose proof (lookup_lt_Some _ _ _ Hi) as Hlt.
  destruct cart as [items]. cbn [Cart.items] in *.
  unfold updated.
  destruct (is_defined (UpdateItemInput.quantity updates));
    destruct (is_defined (UpdateItemInput.price updates));
    cbn [Cart.items].
  - rewrite (alter_as_insert _ _ _ _ Hi).
    rewrite (alter_as_insert _ _ i (CartItem.set_quantity (as_number (UpdateItemInput.quantity updates)) item))
      by (apply list_lookup_insert_eq; exact Hlt).
    rewrite list_insert_insert_eq. reflexivity.
  - rewrite (alter_as_insert _ _ _ _ Hi). reflexivity.
  - rewrite (alter_as_insert _ _ _ _ Hi). reflexivity.
  - rewrite (list_insert_id items i) by (rewrite Hi; destruct item; reflexivity).
    reflexivity.
Qed.

Lemma removeItem_not_found (cart : Cart.t) (productId : float) :
  productId_absent productId (Cart.items cart) ->
  removeItem Number_toString productId cart
  = (Throw (new_NotFoundError (not_found_message Number_toString productId)), cart).
Proof.
  intros Habsent. unfold removeItem, bind, gets, throw.
  rewrite (findItemIndex_absent _ _ Habsent). reflexivity.
Qed.

Lemma removeItem_found (cart : Cart.t) (productId : float) (i : nat) (item : CartItem.t) :
  first_with_productId productId (Cart.items cart) i item ->
  let cart' := Cart.mk (delete i (Cart.items cart)) in
  removeItem Number_toString productId cart = (Return (getCart cart'), cart').
Proof.
  intros Hfirst. unfold removeItem, bind, gets, modify_items.
  rewrite (findItemIndex_first _ _ _ _ Hfirst).
  replace (Z.of_nat i <? 0)%Z with false by (symmetry; apply Z.ltb_ge; lia).
  rewrite Nat2Z.id. reflexivity.
Qed.

Lemma checkout_empty (env : CheckoutEnv.t) (cart : Cart.t) :
  Cart.items cart = [] ->
  checkout Number_toString env cart
  = (Throw (new_BadRequestError (js "Cannot checkout with an empty cart")), cart).
Proof.
  intros Hempty. unfold checkout, bind, gets, throw. rewrite Hempty. reflexivity.
Qed.

Lemma checkout_nonempty (env : CheckoutEnv.t) (cart : Cart.t) :
  Cart.items cart <> [] ->
  checkout Number_toString env cart
  = (Return
       (CheckoutResponse.mk
          (new_orderId Number_toString env)
          (Cart.items cart)
          (calculateTotal cart)
          (calculateItemCount cart)
          (CheckoutEnv.toISOString env)),
     empty_cart).
Proof.
  intros Hnonempty. unfold checkout, bind, gets, modify_items, ret.
  destruct cart as [[|item items]]; [contradiction|]. reflexivity.
Qed.

End Paths.

Lemma getCart_empty : getCart empty_cart = CartResponse.mk [] 0 0.
Proof. vm_compute. reflexivity. Qed.

Lemma clearCart_spec (cart : Cart.t) :
  clearCart cart = (Return (getCart empty_cart), empty_cart).
Proof. reflexivity. Qed.

(** *** The invariant of the cart *)

Lemma invariant_empty : cart_invariant empty_cart.
Proof. split; [constructor|constructor]. Qed.

Lemma invariant_insert (items : list CartItem.t) (i : nat) (item item' : CartItem.t) :
  cart_invariant (Cart.mk items) ->
  items !! i = Some item ->
  CartItem.productId item' = CartItem.productId item ->
  cart_invariant (Cart.mk (<[i := item']> items)).
Proof.
  intros [Hnodup Htruthy] Hi Hid.
  unfold cart_invariant, unique_productIds, truthy_productIds in *. cbn [Cart.items] in *.
  split.
  - rewrite list_fmap_insert, Hid, list_insert_id; [exact Hnodup|].
    rewrite list_lookup_fmap, Hi. reflexivity.
  - apply Forall_insert; [exact Htruthy|].
    rewrite Hid. exact (Forall_lookup_1 _ _ _ _ Htruthy Hi).
Qed.

Lemma invariant_delete (items : list CartItem.t) (i : nat) :
  cart_invariant (Cart.mk items) -> cart_invariant (Cart.mk (delete i items)).
Proof.
  intros [Hnodup Htruthy].
  unfold cart_invariant, unique_productIds, truthy_productIds in *. cbn [Cart.items] in *.
  split.
  - apply (sublist_NoDup _ _ Hnodup). apply fmap_sublist. apply sublist_delete.
  - apply Forall_delete. exact Htruthy.
Qed.

Lemma absent_not_elem (productId : float) (items : list CartItem.t) :
  is_nan productId = false ->
  productId_absent productId items ->
  productId ∉ (CartItem.productId <$> items).
Proof.
  intros Hnan Habsent Hin.
  apply list_elem_of_fmap in Hin as (item & -> & Hitem).
  specialize (Habsent item Hitem). unfold has_productId in Habsent.
  rewrite (number_eqb_refl _ Hnan) in Habsent. discriminate.
Qed.

Lemma invariant_snoc (items : list CartItem.t) (item : CartItem.t) :
  cart_invariant (Cart.mk items) ->
  ToBoolean (JsNumber (CartItem.productId item)) = true ->
  productId_absent (CartItem.productId item) items ->
  cart_invariant (Cart.mk (items ++ [item])).
Proof.
  intros [Hnodup Htruthy] Hid Habsent.
  unfold cart_invariant, unique_productIds, truthy_productIds in *. cbn [Cart.items] in *.
  apply truthy_number in Hid as Hid'. destruct Hid' as [_ Hnan].
  split.
  - rewrite fmap_app. apply NoDup_app. repeat split.
    + exact Hnodup.
    + intros x Hx Hx'. apply list_elem_of_singleton in Hx'. subst x.
      exact (absent_not_elem _ _ Hnan Habsent Hx).
    + apply NoDup_singleton.
  - apply Forall_app. split; [exact Htruthy|]. constructor; [exact Hid|constructor].
Qed.

Lemma invariant_no_two_same (cart : Cart.t) :
  cart_invariant cart -> no_two_same_productId cart.
Proof.
  intros [Hnodup Htruthy] i j a b Ha Hb Hij.
  destruct (has_productId (CartItem.productId b) a) eqn:E; [|reflexivity].
  exfalso. apply Hij.
  pose proof (Forall_lookup_1 _ _ _ _ Htruthy Ha) as Hta.
  apply truthy_number in Hta as [Hzero _].
  apply number_eqb_eq in E; [|exact Hzero].
  apply (NoDup_lookup _ i j (CartItem.productId a) Hnodup).
  - rewrite list_lookup_fmap, Ha. reflexivity.
  - rewrite list_lookup_fmap, Hb, E. reflexivity.
Qed.

Section Reachable.

Variable Number_toString : float -> JsString.

Lemma step_invariant (cart : Cart.t) (op : Operation) :
  cart_invariant cart -> cart_invariant (step Number_toString cart op).
Proof.
  intros Hinv. destruct cart as [items].
  destruct op as [|input|productId updates|productId| |env]; cbn [step].
  - exact Hinv.
  - destruct (validateAddItemInput input) as [[]|e] eqn:Hvalid.
    + destruct (validateAddItemInput_ok_inv _ Hvalid)
        as (pid & nm & pr & q & -> & Hpid & _).
      destruct (first_or_absent pid items) as [(i & item & Hfirst)|Habsent].
      * rewrite (addItem_existing (Cart.mk items) _ i item Hvalid Hfirst). cbn [snd].
        destruct Hfirst as (Hi & _).
        apply (invariant_insert _ _ item); [exact Hinv|exact Hi|reflexivity].
      * rewrite (addItem_new (Cart.mk items) _ Hvalid Habsent). cbn [snd].
        apply invariant_snoc; [exact Hinv|exact Hpid|exact Habsent].
    + rewrite (addItem_invalid _ _ _ Hvalid). exact Hinv.
  - destruct (validateUpdateInput updates) as [[]|e] eqn:Hvalid.
    + destruct (first_or_absent productId items) as [(i & item & Hfirst)|Habsent].
      * rewrite (updateItem_found _ (Cart.mk items) _ _ i item Hvalid Hfirst). cbn [snd].
        destruct Hfirst as (Hi & _).
        apply (invariant_insert _ _ item); [exact Hinv|exact Hi|reflexivity].
      * rewrite (updateItem_not_found _ (Cart.mk items) _ _ Hvalid Habsent). exact Hinv.
    + rewrite (updateItem_invalid _ _ _ _ _ Hvalid). exact Hinv.
  - destruct (first_or_absent productId items) as [(i & item & Hfirst)|Habsent].
    + rewrite (removeItem_found _ (Cart.mk items) _ i item Hfirst). cbn [snd].
      apply invariant_delete. exact Hinv.
    + rewrite (removeItem_not_found _ (Cart.mk items) _ Habsent). exact Hinv.
  - exact invariant_empty.
  - destruct items as [|item items].
    + rewrite checkout_empty by reflexivity. exact Hinv.
    + rewrite checkout_nonempty by discriminate. exact invariant_empty.
Qed.

Lemma fold_step_invariant (ops : list Operation) (cart : Cart.t) :
  cart_invariant cart -> cart_invariant (fold_left (step Number_toString) ops cart).
Proof.
  revert cart. induction ops as [|op ops IH]; intros cart Hinv; simpl.
  - exact Hinv.
  - apply IH. apply step_invariant. exact Hinv.
Qed.

Lemma run_invariant (ops : list Operation) : cart_invariant (run Number_toString ops).
Proof. apply fold_step_invariant. exact invariant_empty. Qed.

Lemma run_snoc (ops : list Operation) (op : Operation) :
  run Number_toString (ops ++ [op]) = step Number_toString (run Number_toString ops) op.
Proof. unfold run. rewrite fold_left_app. reflexivity. Qed.

End Reachable.

(** After a successful [addItem], the cart holds a line item with the
    product identifier of the input. *)
Lemma addItem_then_present (cart : Cart.t) (input : AddItemInput.t) :
  validateAddItemInput input = Return tt ->
  exists i item,
    first_with_productId (as_number (AddItemInput.productId input))
      (Cart.items (snd (addItem input cart))) i item.
Proof.
  intros Hvalid. apply present_not_absent.
  destruct (validateAddItemInput_ok_inv _ Hvalid) as (pid & nm & pr & q & -> & Hpid & _).
  cbn [AddItemInput.productId as_number].
  destruct (first_or_absent pid (Cart.items cart)) as [(i & item & Hfirst)|Habsent].
  - rewrite (addItem_existing _ _ i item Hvalid Hfirst). cbn [snd Cart.items].
    destruct Hfirst as (Hi & Hp & _).
    eexists. split.
    + apply (list_elem_of_lookup_2 _ i).
      apply list_lookup_insert_eq. exact (lookup_lt_Some _ _ _ Hi).
    + exact Hp.
  - rewrite (addItem_new _ _ Hvalid Habsent). cbn [snd Cart.items].
    eexists. split.
    + apply elem_of_app. right. apply list_elem_of_singleton. reflexivity.
    + unfold has_productId. cbn [CartItem.productId AddItemInput.productId as_number].
      apply number_eqb_refl. apply truthy_number in Hpid. tauto.
Qed.

(** *** Snapshots and updates *)

(** A validated update supplies numbers only. *)
Lemma validateUpdateInput_ok_inv (updates : UpdateItemInput.t) :
  validateUpdateInput updates = Return tt ->
  (UpdateItemInput.quantity updates = JsUndefined
   \/ exists q, UpdateItemInput.quantity updates = JsNumber q)
  /\ (UpdateItemInput.price updates = JsUndefined
      \/ exists p, UpdateItemInput.price updates = JsNumber p).
Proof.
  destruct updates as [q p]. unfold validateUpdateInput. simpl.
  destruct q as [| |bq|q|sq|]; destruct p as [| |bp|p|sp|]; simpl;
    try discriminate;
    repeat match goal with
           | |- context [if ?b then _ else _] => destruct b
           end;
    try discriminate; intros _; split; eauto.
Qed.

Lemma updated_supplied (updates : UpdateItemInput.t) (item : CartItem.t) :
  validateUpdateInput updates = Return tt ->
  updated updates item
  = CartItem.mk (CartItem.productId item) (CartItem.name item)
      (supplied (UpdateItemInput.price updates) (CartItem.price item))
      (supplied (UpdateItemInput.quantity updates) (CartItem.quantity item)).
Proof.
  intros Hvalid.
  destruct (validateUpdateInput_ok_inv _ Hvalid) as [[Hq|(q & Hq)] [Hp|(p & Hp)]];
    unfold updated; rewrite Hq, Hp; reflexivity.
Qed.

Lemma fold_left_fmap {A : Type} (f : A -> float) (l : list A) (acc : float) :
  fold_left (fun sum x => (sum + f x)%float) l acc
  = fold_left (fun sum x => (sum + x)%float) (f <$> l) acc.
Proof.
  revert acc. induction l as [|x l IH]; intros acc; simpl; [reflexivity|]. apply IH.
Qed.

Lemma getCart_sums (cart : Cart.t) :
  getCart cart
  = CartResponse.mk (Cart.items cart)
      (round_to_cents
         (sum_numbers
            ((fun item => CartItem.price item * CartItem.quantity item)%float
               <$> Cart.items cart)))
      (sum_numbers (CartItem.quantity <$> Cart.items cart)).
Proof.
  unfold getCart, calculateTotal, calculateItemCount, round_to_cents, sum_numbers.
  rewrite (fold_left_fmap (fun item => CartItem.price item * CartItem.quantity item)%float).
  rewrite (fold_left_fmap CartItem.quantity). reflexivity.
Qed.

Lemma addItem_returns_snapshot (cart cart' : Cart.t) (input : AddItemInput.t)
    (response : CartResponse.t) :
  addItem input cart = (Return response, cart') -> response = getCart cart'.
Proof.
  intros H. destruct (validateAddItemInput input) as [[]|e] eqn:Hvalid.
  - destruct (first_or_absent (as_number (AddItemInput.productId input)) (Cart.items cart))
      as [(i & item & Hfirst)|Habsent].
    + rewrite (addItem_existing cart input i item Hvalid Hfirst) in H.
      injection H as <- <-. reflexivity.
    + rewrite (addItem_new cart input Hvalid Habsent) in H.
      injection H as <- <-. reflexivity.
  - rewrite (addItem_invalid cart input e Hvalid) in H. discriminate H.
Qed.

Section Snapshots.

Variable Number_toString : float -> JsString.

Lemma updateItem_returns_snapshot (cart cart' : Cart.t) (productId : float)
    (updates : UpdateItemInput.t) (response : CartResponse.t) :
  updateItem Number_toString productId updates cart = (Return response, cart') ->
  response = getCart cart'.
Proof.
  intros H. destruct (validateUpdateInput updates) as [[]|e] eqn:Hvalid.
  - destruct (first_or_absent productId (Cart.items cart))
      as [(i & item & Hfirst)|Habsent].
    + rewrite (updateItem_found _ cart productId updates i item Hvalid Hfirst) in H.
      injection H as <- <-. reflexivity.
    + rewrite (updateItem_not_found _ cart productId updates Hvalid Habsent) in H.
      discriminate H.
  - rewrite (updateItem_invalid _ cart productId updates e Hvalid) in H. discriminate H.
Qed.

Lemma removeItem_returns_snapshot (cart cart' : Cart.t) (productId : float)
    (response : CartResponse.t) :
  removeItem Number_toString productId cart = (Return response, cart') ->
  response = getCart cart'.
Proof.
  intros H. destruct (first_or_absent productId (Cart.items cart))
    as [(i & item & Hfirst)|Habsent].
  - rewrite (removeItem_found _ cart productId i item Hfirst) in H.
    injection H as <- <-. reflexivity.
  - rewrite (removeItem_not_found _ cart productId Habsent) in H. discriminate H.
Qed.

Lemma checkout_returns_totals (env : CheckoutEnv.t) (cart cart' : Cart.t)
    (summary : CheckoutResponse.t) :
  checkout Number_toString env cart = (Return summary, cart') ->
  CheckoutResponse.items summary = CartResponse.items (getCart cart)
  /\ CheckoutResponse.total summary = CartResponse.total (getCart cart)
  /\ CheckoutResponse.itemCount summary = CartResponse.itemCount (getCart cart).
Proof.
  intros H. destruct cart as [[|item items]].
  - rewrite checkout_empty in H by reflexivity. discriminate H.
  - rewrite checkout_nonempty in H by discriminate.
    injection H as <- <-. split; [reflexivity|split; reflexivity].
Qed.

End Snapshots.

(** In a cart that keeps the invariant, the first line item with a
    productId is the only one. *)
Lemma first_is_only (cart : Cart.t) (productId : float) (i : nat) (item : CartItem.t) :
  cart_invariant cart ->
  first_with_productId productId (Cart.items cart) i item ->
  forall j other,
    Cart.items cart !! j = Some other -> has_productId productId other = true -> j = i.
Proof.
  intros [Hnodup Htruthy] (Hi & Hsame & _) j other Hj Hother.
  assert (Hz : forall it n, Cart.items cart !! n = Some it ->
                            is_zero (CartItem.productId it) = false).
  { intros it n Hn. pose proof (Forall_lookup_1 _ _ _ _ Htruthy Hn) as Ht.
    apply truthy_number in Ht. tauto. }
  unfold has_productId in *.
  apply number_eqb_eq in Hother; [|exact (Hz _ _ Hj)].
  apply number_eqb_eq in Hsame; [|exact (Hz _ _ Hi)].
  apply (NoDup_lookup _ j i productId Hnodup).
  - rewrite list_lookup_fmap, Hj. simpl. f_equal. exact Hother.
  - rewrite list_lookup_fmap, Hi. simpl. f_equal. exact Hsame.
Qed.

(* ================================================================== *)
(** ** The claims *)
(* ================================================================== *)

(** C1.  For every input that passes validation: if the cart already holds
    a line item with the same productId, [addItem] increases the quantity
    of that item (the first such item, the only one by C5) by the incoming
    quantity and leaves its productId, name and price unchanged; otherwise
    it appends a new line item at the end of the list, the name trimmed of
    leading and trailing white space.  Either way it returns the snapshot
    of the cart it leaves behind. *)
Theorem addItem_increments_or_appends (cart : Cart.t) (input : AddItemInput.t) :
  validateAddItemInput input = Return tt ->
  exists productId name price quantity,
    input = AddItemInput.mk (JsNumber productId) (JsStr name)
              (JsNumber price) (JsNumber quantity)
    /\ ((exists item, item ∈ Cart.items cart /\ has_productId productId item = true) ->
        exists i item,
          first_with_productId productId (Cart.items cart) i item
          /\ let cart' :=
               Cart.mk (<[i := CartItem.mk (CartItem.productId item) (CartItem.name item)
                                (CartItem.price item)
                                (CartItem.quantity item + quantity)%float]>
                          (Cart.items cart)) in
             addItem input cart = (Return (getCart cart'), cart'))
    /\ (productId_absent productId (Cart.items cart) ->
        let cart' :=
          Cart.mk (Cart.items cart ++ [CartItem.mk productId (trim name) price quantity]) in
        addItem input cart = (Return (getCart cart'), cart'))
    /\ trimmed_of name (trim name).
Proof.
  intros Hvalid.
  destruct (validateAddItemInput_ok_inv _ Hvalid) as (pid & nm & pr & q & -> & _).
  exists pid, nm, pr, q. split; [reflexivity|]. split; [|split].
  - intros Hpresent.
    destruct (present_not_absent _ _ Hpresent) as (i & item & Hfirst).
    exists i, item. split; [exact Hfirst|].
    exact (addItem_existing cart _ i item Hvalid Hfirst).
  - intros Habsent. exact (addItem_new cart _ Hvalid Habsent).
  - apply trim_spec.
Qed.

Lemma addItem_increments_or_appends_witness :
  validateAddItemInput milk = Return tt
  /\ addItem milk empty_cart = (Return (getCart milk_cart), milk_cart).
Proof.
  assert (Hvalid : validateAddItemInput milk = Return tt) by (vm_compute; reflexivity).
  split; [exact Hvalid|].
  destruct (addItem_increments_or_appends empty_cart milk Hvalid)
    as (pid & nm & pr & q & Heq & _ & Hnew & _).
  injection Heq as <- <- <- <-.
  apply Hnew. intros item Hitem. inversion Hitem.
Defined.

(** C2, as the code has it.  The snapshot returned by [getCart], and by
    every mutating operation for the cart it leaves behind, has total equal
    to [Math.round(S * 100) / 100], where [S] is the sum of price ×
    quantity over the items, and itemCount equal to the sum of quantity
    over the items, both sums taken in binary64 arithmetic from 0, left to
    right, every product and addition rounded to the nearest number; the
    empty cart yields total 0 and itemCount 0.  The order summary of
    [checkout] carries the items, total and itemCount of the snapshot of
    the cart before the call. *)
Theorem snapshot_total_and_itemCount (Number_toString : float -> JsString) :
  (forall cart,
     getCart cart
     = CartResponse.mk (Cart.items cart)
         (round_to_cents
            (sum_numbers
               ((fun item => CartItem.price item * CartItem.quantity item)%float
                  <$> Cart.items cart)))
         (sum_numbers (CartItem.quantity <$> Cart.items cart)))
  /\ getCart empty_cart = CartResponse.mk [] 0 0
  /\ (forall cart input response cart',
        addItem input cart = (Return response, cart') -> response = getCart cart')
  /\ (forall cart productId updates response cart',
        updateItem Number_toString productId updates cart = (Return response, cart') ->
        response = getCart cart')
  /\ (forall cart productId response cart',
        removeItem Number_toString productId cart = (Return response, cart') ->
        response = getCart cart')
  /\ (forall cart, clearCart cart = (Return (getCart empty_cart), empty_cart))
  /\ (forall env cart summary cart',
        checkout Number_toString env cart = (Return summary, cart') ->
        CheckoutResponse.items summary = CartResponse.items (getCart cart)
        /\ CheckoutResponse.total summary = CartResponse.total (getCart cart)
        /\ CheckoutResponse.itemCount summary = CartResponse.itemCount (getCart cart)).
Proof.
  split; [exact getCart_sums|].
  split; [exact getCart_empty|].
  split; [intros cart input response cart'; apply addItem_returns_snapshot|].
  split; [intros cart productId updates response cart';
          apply updateItem_returns_snapshot|].
  split; [intros cart productId response cart'; apply removeItem_returns_snapshot|].
  split; [exact clearCart_spec|].
  intros env cart summary cart'. apply checkout_returns_totals.
Qed.

Lemma snapshot_total_and_itemCount_witness :
  addItem bread milk_cart
  = (Return (CartResponse.mk (Cart.items milk_bread_cart) 6.5 3), milk_bread_cart)
  /\ CartResponse.mk (Cart.items milk_bread_cart) 6.5 3 = getCart milk_bread_cart.
Proof.
  assert (Hadd : addItem bread milk_cart
                 = (Return (CartResponse.mk (Cart.items milk_bread_cart) 6.5 3),
                    milk_bread_cart))
    by (vm_compute; reflexivity).
  split; [exact Hadd|].
  exact (proj1 (proj2 (proj2 (snapshot_total_and_itemCount integer_toString)))
           milk_cart bread _ _ Hadd).
Defined.

(** C2 as stated fails.  Five pens at 0.251 each: the exact sum of price ×
    quantity is a little above 1.255 and rounds half-up to 1.26, but the
    product computed in binary64 is 1.2549999999999999, and the total of
    the snapshot is 1.25, which is not the number nearest to 1.26. *)
Lemma total_not_as_specified :
  exists response cart,
    addItem pens empty_cart = (Return response, cart)
    /\ CartResponse.total response = 1.25%float
    /\ (exists s, exact_total (Cart.items cart) = Some s
                  /\ (round_half_up_cents s == 126 # 100)%Q)
    /\ ~ total_as_specified (Cart.items cart) (CartResponse.total response).
Proof.
  eexists. eexists. split; [vm_compute; reflexivity|].
  split; [reflexivity|]. split.
  - eexists. split; [vm_compute; reflexivity|]. vm_compute. reflexivity.
  - intros (s & Hs & tq & Htq & Hnearest).
    vm_compute in Hs. injection Hs as <-.
    vm_compute in Htq. injection Htq as <-.
    specialize (Hnearest number_1_26 _ eq_refl).
    vm_compute in Hnearest. apply Hnearest. reflexivity.
Qed.

(** C3.  For every non-empty cart, [checkout] returns an order summary
    whose items, total and itemCount are those of the cart before the call,
    with the orderId built from the clock and the random identifier read
    during the call and with the time stamp of the call; afterwards the
    cart is empty, and [getCart] returns the empty snapshot. *)
Theorem checkout_returns_summary_and_empties
    (Number_toString : float -> JsString) (env : CheckoutEnv.t) (cart : Cart.t) :
  Cart.items cart <> [] ->
  exists cart',
    checkout Number_toString env cart
    = (Return
         (CheckoutResponse.mk
            (js "ORD-" ++ Number_toString (CheckoutEnv.Date_now env)
               ++ js "-" ++ take 8 (CheckoutEnv.uuidv4 env))
            (Cart.items cart)
            (CartResponse.total (getCart cart))
            (CartResponse.itemCount (getCart cart))
            (CheckoutEnv.toISOString env)),
       cart')
    /\ Cart.items cart' = []
    /\ getCart cart' = CartResponse.mk [] 0 0.
Proof.
  intros Hnonempty. exists empty_cart. split; [|split].
  - exact (checkout_nonempty Number_toString env cart Hnonempty).
  - reflexivity.
  - exact getCart_empty.
Qed.

Lemma checkout_returns_summary_and_empties_witness :
  Cart.items milk_cart <> []
  /\ exists summary cart',
       checkout integer_toString an_env milk_cart = (Return summary, cart')
       /\ CheckoutResponse.orderId summary = js "ORD-1764300000000-123e4567"
       /\ CheckoutResponse.total summary = 5%float
       /\ CheckoutResponse.itemCount summary = 2%float
       /\ getCart cart' = CartResponse.mk [] 0 0.
Proof.
  assert (Hnonempty : Cart.items milk_cart <> []) by discriminate.
  split; [exact Hnonempty|].
  destruct (checkout_returns_summary_and_empties integer_toString an_env milk_cart Hnonempty)
    as (cart' & Hcheckout & _ & Hget).
  eexists. exists cart'. split; [exact Hcheckout|].
  repeat split; try (vm_compute; reflexivity). exact Hget.
Defined.

(** C4, as the code has it.  On a cart without items, [checkout] throws a
    BadRequestError (status 400) whose message is "Cannot checkout with an
    empty cart", and leaves the cart as it was. *)
Theorem checkout_empty_throws
    (Number_toString : float -> JsString) (env : CheckoutEnv.t) (cart : Cart.t) :
  Cart.items cart = [] ->
  checkout Number_toString env cart
  = (Throw (mkAppError BadRequestError (js "Cannot checkout with an empty cart") 400 true),
     cart).
Proof. intros Hempty. exact (checkout_empty Number_toString env cart Hempty). Qed.

Lemma checkout_empty_throws_witness :
  Cart.items empty_cart = []
  /\ checkout integer_toString an_env empty_cart
     = (Throw (mkAppError BadRequestError (js "Cannot checkout with an empty cart") 400 true),
        empty_cart).
Proof.
  split; [reflexivity|].
  apply (checkout_empty_throws integer_toString an_env empty_cart). reflexivity.
Defined.

(** C4 as stated fails: the message of the error starts with a capital
    letter, so it is not the string the specification gives. *)
Lemma checkout_empty_message_not_as_specified :
  ~ throws_with BadRequestError (js "cannot checkout with an empty cart")
      (checkout integer_toString an_env empty_cart) empty_cart.
Proof.
  intros (e & Hresult & _ & Hmessage).
  vm_compute in Hresult. injection Hresult as <-.
  vm_compute in Hmessage. discriminate Hmessage.
Qed.

(** C5.  After every sequence of calls on a new cart, the cart holds at
    most one line item per productId: the productIds in the list are
    pairwise different, and no two positions hold productIds that [===]
    identifies.  A repeated add of the same productId increments the
    quantity rather than creating a duplicate entry: after a first
    accepted [addItem], a second accepted [addItem] with the same productId
    leaves the list as it is except for the one line item with that
    productId, whose quantity it increases by the incoming quantity, so
    the number of line items stays the same. *)
Theorem at_most_one_line_item_per_productId
    (Number_toString : float -> JsString) (ops : list Operation) :
  NoDup (CartItem.productId <$> Cart.items (run Number_toString ops))
  /\ no_two_same_productId (run Number_toString ops)
  /\ (forall input,
        length (Cart.items (run Number_toString (ops ++ [OpAddItem input; OpAddItem input])))
        = length (Cart.items (run Number_toString (ops ++ [OpAddItem input]))))
  /\ (forall first again,
        validateAddItemInput first = Return tt ->
        validateAddItemInput again = Return tt ->
        AddItemInput.productId again = AddItemInput.productId first ->
        exists i item,
          first_with_productId (as_number (AddItemInput.productId first))
            (Cart.items (run Number_toString (ops ++ [OpAddItem first]))) i item
          /\ (forall j other,
                Cart.items (run Number_toString (ops ++ [OpAddItem first])) !! j
                = Some other ->
                has_productId (as_number (AddItemInput.productId first)) other = true ->
                j = i)
          /\ Cart.items
               (run Number_toString (ops ++ [OpAddItem first; OpAddItem again]))
             = <[i := CartItem.mk (CartItem.productId item) (CartItem.name item)
                        (CartItem.price item)
                        (CartItem.quantity item
                         + as_number (AddItemInput.quantity again))%float]>
                 (Cart.items (run Number_toString (ops ++ [OpAddItem first])))).
Proof.
  pose proof (run_invariant Number_toString ops) as Hinv.
  split; [exact (proj1 Hinv)|]. split; [exact (invariant_no_two_same _ Hinv)|].
  split.
  - intros input.
    change [OpAddItem input; OpAddItem input] with ([OpAddItem input] ++ [OpAddItem input]).
    rewrite app_assoc, (run_snoc _ (ops ++ [OpAddItem input])).
    set (cart1 := run Number_toString (ops ++ [OpAddItem input])).
    assert (Hcart1 : cart1 = snd (addItem input (run Number_toString ops))).
    { unfold cart1. rewrite run_snoc. reflexivity. }
    cbn [step].
    destruct (validateAddItemInput input) as [[]|e] eqn:Hvalid.
    + destruct (addItem_then_present (run Number_toString ops) input Hvalid)
        as (i & item & Hfirst).
      rewrite <- Hcart1 in Hfirst.
      rewrite (addItem_existing cart1 input i item Hvalid Hfirst). cbn [snd Cart.items].
      apply length_insert.
    + rewrite (addItem_invalid cart1 input e Hvalid). reflexivity.
  - intros first again Hfirst_valid Hagain_valid Hsame.
    change [OpAddItem first; OpAddItem again] with ([OpAddItem first] ++ [OpAddItem again]).
    rewrite app_assoc, (run_snoc _ (ops ++ [OpAddItem first])).
    pose proof (run_invariant Number_toString (ops ++ [OpAddItem first])) as Hinv1.
    set (cart1 := run Number_toString (ops ++ [OpAddItem first])) in *.
    assert (Hcart1 : cart1 = snd (addItem first (run Number_toString ops))).
    { unfold cart1. rewrite run_snoc. reflexivity. }
    destruct (addItem_then_present (run Number_toString ops) first Hfirst_valid)
      as (i & item & Hfirst).
    rewrite <- Hcart1 in Hfirst.
    exists i, item. split; [exact Hfirst|]. split.
    + exact (first_is_only cart1 _ i item Hinv1 Hfirst).
    + cbn [step]. rewrite <- Hsame in Hfirst.
      rewrite (addItem_existing cart1 again i item Hagain_valid Hfirst).
      reflexivity.
Qed.

Lemma at_most_one_line_item_per_productId_witness :
  validateAddItemInput milk = Return tt
  /\ Cart.items (run integer_toString [OpAddItem milk; OpAddItem milk])
     = [CartItem.mk 1 (js "Milk") 2.5 (2 + 2)].
Proof.
  assert (Hvalid : validateAddItemInput milk = Return tt) by (vm_compute; reflexivity).
  split; [exact Hvalid|].
  destruct (proj2 (proj2 (proj2 (at_most_one_line_item_per_productId integer_toString [])))
              milk milk Hvalid Hvalid eq_refl)
    as (i & item & (Hi & _) & _ & Hitems).
  change ([] ++ [OpAddItem milk; OpAddItem milk])
    with [OpAddItem milk; OpAddItem milk] in Hitems.
  rewrite Hitems.
  change (Cart.items (run integer_toString ([] ++ [OpAddItem milk])))
    with [CartItem.mk 1 (js "Milk") 2.5 2] in *.
  destruct i as [|i]; [|destruct i; discriminate Hi].
  injection Hi as <-. reflexivity.
Defined.

(** C6, as the code has it.  [addItem] validates its input in the order
    productId, name, price, quantity, the first violation winning, and
    throws a ValidationError (status 400) with the message "productId is
    required and must be a number" when productId is falsy (absent, null,
    a zero, NaN) or not of type number; "name is required and must be a
    non-empty string" when name is falsy, not a string, or empty after
    trimming; "price must be greater than 0" when price is not of type
    number or is [<= 0]; "quantity must be at least 1 and must be an
    integer" when quantity is not of type number, is [< 1] or is not an
    integer.  An input with no violation is accepted, and whenever
    [addItem] throws, the cart is as it was before the call. *)
Theorem addItem_validation (cart : Cart.t) (input : AddItemInput.t) :
  (productId_rejected (AddItemInput.productId input) ->
   addItem input cart
   = (Throw (mkAppError ValidationError
               (js "productId is required and must be a number") 400 true), cart))
  /\ (~ productId_rejected (AddItemInput.productId input) ->
      name_rejected (AddItemInput.name input) ->
      addItem input cart
      = (Throw (mkAppError ValidationError
                  (js "name is required and must be a non-empty string") 400 true), cart))
  /\ (~ productId_rejected (AddItemInput.productId input) ->
      ~ name_rejected (AddItemInput.name input) ->
      price_rejected (AddItemInput.price input) ->
      addItem input cart
      = (Throw (mkAppError ValidationError (js "price must be greater than 0") 400 true),
         cart))
  /\ (~ productId_rejected (AddItemInput.productId input) ->
      ~ name_rejected (AddItemInput.name input) ->
      ~ price_rejected (AddItemInput.price input) ->
      quantity_rejected (AddItemInput.quantity input) ->
      addItem input cart
      = (Throw (mkAppError ValidationError
                  (js "quantity must be at least 1 and must be an integer") 400 true),
         cart))
  /\ (~ productId_rejected (AddItemInput.productId input) ->
      ~ name_rejected (AddItemInput.name input) ->
      ~ price_rejected (AddItemInput.price input) ->
      ~ quantity_rejected (AddItemInput.quantity input) ->
      exists response cart', addItem input cart = (Return response, cart'))
  /\ (forall e cart',
        addItem input cart = (Throw e, cart') ->
        cart' = cart /\ errorClass e = ValidationError).
Proof.
  destruct (validateAddItemInput_cases input) as (Hid & Hname & Hprice & Hquantity & Hok).
  split; [|split; [|split; [|split; [|split]]]].
  - intros H1. exact (addItem_invalid cart input _ (Hid H1)).
  - intros H1 H2. exact (addItem_invalid cart input _ (Hname H1 H2)).
  - intros H1 H2 H3. exact (addItem_invalid cart input _ (Hprice H1 H2 H3)).
  - intros H1 H2 H3 H4. exact (addItem_invalid cart input _ (Hquantity H1 H2 H3 H4)).
  - intros H1 H2 H3 H4. pose proof (Hok H1 H2 H3 H4) as Hvalid.
    destruct (first_or_absent (as_number (AddItemInput.productId input)) (Cart.items cart))
      as [(i & item & Hfirst)|Habsent].
    + eexists. eexists. exact (addItem_existing cart input i item Hvalid Hfirst).
    + eexists. eexists. exact (addItem_new cart input Hvalid Habsent).
  - intros e cart' H.
    destruct (validateAddItemInput input) as [[]|e'] eqn:Hvalid.
    + destruct (first_or_absent (as_number (AddItemInput.productId input)) (Cart.items cart))
        as [(i & item & Hfirst)|Habsent].
      * rewrite (addItem_existing cart input i item Hvalid Hfirst) in H. discriminate H.
      * rewrite (addItem_new cart input Hvalid Habsent) in H. discriminate H.
    + rewrite (addItem_invalid cart input e' Hvalid) in H. injection H as <- <-.
      split; [reflexivity|].
      exact (proj1 (validateAddItemInput_throws input e' Hvalid)).
Qed.

Lemma addItem_validation_witness :
  productId_rejected (AddItemInput.productId milk_without_productId)
  /\ addItem milk_without_productId milk_cart
     = (Throw (mkAppError ValidationError
                 (js "productId is required and must be a number") 400 true), milk_cart).
Proof.
  assert (H : productId_rejected (AddItemInput.productId milk_without_productId))
    by (left; reflexivity).
  split; [exact H|].
  exact (proj1 (addItem_validation milk_cart milk_without_productId) H).
Defined.

(** C6 as stated fails: for an absent productId the message is not
    exactly "productId is required". *)
Lemma addItem_message_not_as_specified :
  ~ throws_with ValidationError (js "productId is required")
      (addItem milk_without_productId empty_cart) empty_cart.
Proof.
  intros (e & Hresult & _ & Hmessage).
  vm_compute in Hresult. injection Hresult as <-.
  vm_compute in Hmessage. discriminate Hmessage.
Qed.

(** C7, as the code has it.  [updateItem] checks, in this order: that a
    field is supplied, else ValidationError "At least one field (quantity
    or price) must be provided"; a supplied quantity, else ValidationError
    "quantity must be at least 1 and must be an integer"; a supplied price,
    else ValidationError "price must be greater than 0"; and only then that
    a line item with the productId exists, else NotFoundError (status 404)
    "Item with productId <id> not found in cart".  The three field checks
    do not look at the cart, so with an invalid field the ValidationError
    wins whether or not the productId is present; every failure leaves the
    cart as it was. *)
Theorem updateItem_validation
    (Number_toString : float -> JsString)
    (cart : Cart.t) (productId : float) (updates : UpdateItemInput.t) :
  (UpdateItemInput.quantity updates = JsUndefined ->
   UpdateItemInput.price updates = JsUndefined ->
   updateItem Number_toString productId updates cart
   = (Throw (mkAppError ValidationError
               (js "At least one field (quantity or price) must be provided") 400 true),
      cart))
  /\ (UpdateItemInput.quantity updates <> JsUndefined ->
      quantity_rejected (UpdateItemInput.quantity updates) ->
      updateItem Number_toString productId updates cart
      = (Throw (mkAppError ValidationError
                  (js "quantity must be at least 1 and must be an integer") 400 true),
         cart))
  /\ (UpdateItemInput.quantity updates = JsUndefined
      \/ ~ quantity_rejected (UpdateItemInput.quantity updates) ->
      UpdateItemInput.price updates <> JsUndefined ->
      price_rejected (UpdateItemInput.price updates) ->
      updateItem Number_toString productId updates cart
      = (Throw (mkAppError ValidationError (js "price must be greater than 0") 400 true),
         cart))
  /\ (UpdateItemInput.quantity updates <> JsUndefined
      \/ UpdateItemInput.price updates <> JsUndefined ->
      UpdateItemInput.quantity updates = JsUndefined
      \/ ~ quantity_rejected (UpdateItemInput.quantity updates) ->
      UpdateItemInput.price updates = JsUndefined
      \/ ~ price_rejected (UpdateItemInput.price updates) ->
      productId_absent productId (Cart.items cart) ->
      updateItem Number_toString productId updates cart
      = (Throw (mkAppError NotFoundError
                  (js "Item with productId " ++ Number_toString productId
                     ++ js " not found in cart") 404 true),
         cart))
  /\ (forall e cart',
        updateItem Number_toString productId updates cart = (Throw e, cart') ->
        cart' = cart
        /\ (errorClass e = ValidationError \/ errorClass e = NotFoundError)).
Proof.
  destruct (validateUpdateInput_cases updates) as (Hnone & Hquantity & Hprice & Hok).
  split; [|split; [|split; [|split]]]; cycle 4.
  { intros e cart' H.
    destruct (validateUpdateInput updates) as [[]|e'] eqn:Hvalid.
    - destruct (first_or_absent productId (Cart.items cart))
        as [(i & item & Hfirst)|Habsent].
      + rewrite (updateItem_found _ cart productId updates i item Hvalid Hfirst) in H.
        discriminate H.
      + rewrite (updateItem_not_found _ cart productId updates Hvalid Habsent) in H.
        injection H as <- <-. split; [reflexivity|right; reflexivity].
    - rewrite (updateItem_invalid _ cart productId updates e' Hvalid) in H.
      injection H as <- <-. split; [reflexivity|left].
      exact (proj1 (validateUpdateInput_throws updates e' Hvalid)). }
  - intros H1 H2. exact (updateItem_invalid _ cart productId updates _ (Hnone H1 H2)).
  - intros H1 H2. exact (updateItem_invalid _ cart productId updates _ (Hquantity H1 H2)).
  - intros H1 H2 H3. exact (updateItem_invalid _ cart productId updates _ (Hprice H1 H2 H3)).
  - intros H1 H2 H3 Habsent.
    exact (updateItem_not_found _ cart productId updates (Hok H1 H2 H3) Habsent).
Qed.

Lemma updateItem_validation_witness :
  (UpdateItemInput.quantity quantity_5 <> JsUndefined
   \/ UpdateItemInput.price quantity_5 <> JsUndefined)
  /\ (UpdateItemInput.quantity quantity_5 = JsUndefined
      \/ ~ quantity_rejected (UpdateItemInput.quantity quantity_5))
  /\ (UpdateItemInput.price quantity_5 = JsUndefined
      \/ ~ price_rejected (UpdateItemInput.price quantity_5))
  /\ productId_absent 999 (Cart.items milk_cart)
  /\ updateItem integer_toString 999 quantity_5 milk_cart
     = (Throw (mkAppError NotFoundError
                 (js "Item with productId 999 not found in cart") 404 true),
        milk_cart).
Proof.
  assert (H1 : UpdateItemInput.quantity quantity_5 <> JsUndefined
               \/ UpdateItemInput.price quantity_5 <> JsUndefined)
    by (left; discriminate).
  assert (H2 : UpdateItemInput.quantity quantity_5 = JsUndefined
               \/ ~ quantity_rejected (UpdateItemInput.quantity quantity_5)).
  { right. intros [H|[H|H]]; [apply H; reflexivity|vm_compute in H; discriminate H
                                |vm_compute in H; discriminate H]. }
  assert (H3 : UpdateItemInput.price quantity_5 = JsUndefined
               \/ ~ price_rejected (UpdateItemInput.price quantity_5))
    by (left; reflexivity).
  assert (H4 : productId_absent 999 (Cart.items milk_cart)).
  { intros item Hitem. apply list_elem_of_singleton in Hitem. subst item.
    vm_compute. reflexivity. }
  split; [exact H1|split; [exact H2|split; [exact H3|split; [exact H4|]]]].
  exact (proj1 (proj2 (proj2 (proj2
           (updateItem_validation integer_toString milk_cart 999 quantity_5)))) H1 H2 H3 H4).
Defined.

(** C7 as stated fails: with no field supplied the message is not the
    string "at least one field must be provided". *)
Lemma updateItem_message_not_as_specified :
  ~ throws_with ValidationError (js "at least one field must be provided")
      (updateItem integer_toString 1 no_updates milk_cart) milk_cart.
Proof.
  intros (e & Hresult & _ & Hmessage).
  vm_compute in Hresult. injection Hresult as <-.
  vm_compute in Hmessage. discriminate Hmessage.
Qed.

(** C8.  For a cart that holds a line item with the given productId and a
    valid update, [updateItem] overwrites the fields supplied on that line
    item (the first with the productId, the only one by C5) and nothing
    else: the field not supplied, the name and the productId keep their
    values, every other line item is unchanged, and so are the length and
    the order of the list. *)
Theorem updateItem_overwrites_supplied_fields
    (Number_toString : float -> JsString)
    (cart : Cart.t) (productId : float) (updates : UpdateItemInput.t) :
  validateUpdateInput updates = Return tt ->
  (exists item, item ∈ Cart.items cart /\ has_productId productId item = true) ->
  exists i item cart',
    first_with_productId productId (Cart.items cart) i item
    /\ updateItem Number_toString productId updates cart = (Return (getCart cart'), cart')
    /\ Cart.items cart' !! i
       = Some (CartItem.mk (CartItem.productId item) (CartItem.name item)
                 (supplied (UpdateItemInput.price updates) (CartItem.price item))
                 (supplied (UpdateItemInput.quantity updates) (CartItem.quantity item)))
    /\ length (Cart.items cart') = length (Cart.items cart)
    /\ forall j, j <> i -> Cart.items cart' !! j = Cart.items cart !! j.
Proof.
  intros Hvalid Hpresent.
  destruct (present_not_absent _ _ Hpresent) as (i & item & Hfirst).
  exists i, item, (Cart.mk (<[i := updated updates item]> (Cart.items cart))).
  split; [exact Hfirst|]. split; [|split; [|split]].
  - exact (updateItem_found Number_toString cart productId updates i item Hvalid Hfirst).
  - cbn [Cart.items]. rewrite <- (updated_supplied updates item Hvalid).
    apply list_lookup_insert_eq. destruct Hfirst as (Hi & _).
    exact (lookup_lt_Some _ _ _ Hi).
  - cbn [Cart.items]. apply length_insert.
  - intros j Hj. cbn [Cart.items]. apply list_lookup_insert_ne. congruence.
Qed.

Lemma updateItem_overwrites_supplied_fields_witness :
  validateUpdateInput quantity_5 = Return tt
  /\ (exists item, item ∈ Cart.items milk_bread_cart /\ has_productId 2 item = true)
  /\ exists cart',
       updateItem integer_toString 2 quantity_5 milk_bread_cart
       = (Return (getCart cart'), cart')
       /\ Cart.items cart'
          = [CartItem.mk 1 (js "Milk") 2.5 2; CartItem.mk 2 (js "Bread") 1.5 5].
Proof.
  assert (Hvalid : validateUpdateInput quantity_5 = Return tt) by (vm_compute; reflexivity).
  assert (Hpresent : exists item,
             item ∈ Cart.items milk_bread_cart /\ has_productId 2 item = true).
  { exists (CartItem.mk 2 (js "Bread") 1.5 1). split.
    - right. left.
    - vm_compute. reflexivity. }
  split; [exact Hvalid|]. split; [exact Hpresent|].
  destruct (updateItem_overwrites_supplied_fields integer_toString milk_bread_cart 2
              quantity_5 Hvalid Hpresent)
    as (i & item & cart' & _ & Hupdate & _).
  exists cart'. split; [exact Hupdate|].
  assert (Hrun : updateItem integer_toString 2 quantity_5 milk_bread_cart
                 = (Return (getCart (Cart.mk [CartItem.mk 1 (js "Milk") 2.5 2;
                                               CartItem.mk 2 (js "Bread") 1.5 5])),
                    Cart.mk [CartItem.mk 1 (js "Milk") 2.5 2;
                             CartItem.mk 2 (js "Bread") 1.5 5]))
    by (vm_compute; reflexivity).
  rewrite Hrun in Hupdate. apply (f_equal snd) in Hupdate. cbn [snd] in Hupdate.
  rewrite <- Hupdate. reflexivity.
Defined.

(** C9.  [removeItem] on a productId present in the cart removes exactly
    that line item (the first with the productId, the only one by C5), the
    other line items keeping their order, and returns the snapshot of the
    resulting cart.  For a productId absent from the cart, [removeItem]
    and [updateItem] with valid fields throw a NotFoundError and leave the
    cart exactly as it was. *)
Theorem removeItem_removes_and_absent_is_not_found
    (Number_toString : float -> JsString) (cart : Cart.t) (productId : float) :
  ((exists item, item ∈ Cart.items cart /\ has_productId productId item = true) ->
   exists i item,
     first_with_productId productId (Cart.items cart) i item
     /\ Cart.items cart = take i (Cart.items cart) ++ item :: drop (S i) (Cart.items cart)
     /\ let cart' := Cart.mk (take i (Cart.items cart) ++ drop (S i) (Cart.items cart)) in
        removeItem Number_toString productId cart = (Return (getCart cart'), cart'))
  /\ (productId_absent productId (Cart.items cart) ->
      throws_with NotFoundError (not_found_message Number_toString productId)
        (removeItem Number_toString productId cart) cart
      /\ forall updates,
           validateUpdateInput updates = Return tt ->
           throws_with NotFoundError (not_found_message Number_toString productId)
             (updateItem Number_toString productId updates cart) cart).
Proof.
  split.
  - intros Hpresent.
    destruct (present_not_absent _ _ Hpresent) as (i & item & Hfirst).
    exists i, item. split; [exact Hfirst|]. split.
    + destruct Hfirst as (Hi & _). symmetry. apply take_drop_middle. exact Hi.
    + cbn zeta. rewrite <- delete_as_take_drop.
      exact (removeItem_found Number_toString cart productId i item Hfirst).
  - intros Habsent. split.
    + eexists. split; [exact (removeItem_not_found Number_toString cart productId Habsent)|].
      split; reflexivity.
    + intros updates Hvalid. eexists. split.
      * exact (updateItem_not_found Number_toString cart productId updates Hvalid Habsent).
      * split; reflexivity.
Qed.

Lemma removeItem_removes_and_absent_is_not_found_witness :
  (exists item, item ∈ Cart.items milk_bread_cart /\ has_productId 1 item = true)
  /\ exists cart',
       removeItem integer_toString 1 milk_bread_cart = (Return (getCart cart'), cart')
       /\ Cart.items cart' = [CartItem.mk 2 (js "Bread") 1.5 1].
Proof.
  assert (Hpresent : exists item,
             item ∈ Cart.items milk_bread_cart /\ has_productId 1 item = true).
  { exists (CartItem.mk 1 (js "Milk") 2.5 2). split.
    - left.
    - vm_compute. reflexivity. }
  split; [exact Hpresent|].
  destruct (proj1 (removeItem_removes_and_absent_is_not_found integer_toString
                     milk_bread_cart 1) Hpresent)
    as (i & item & _ & _ & Hremove).
  eexists. split; [exact Hremove|].
  assert (Hrun : removeItem integer_toString 1 milk_bread_cart
                 = (Return (getCart (Cart.mk [CartItem.mk 2 (js "Bread") 1.5 1])),
                    Cart.mk [CartItem.mk 2 (js "Bread") 1.5 1]))
    by (vm_compute; reflexivity).
  rewrite Hrun in Hremove. apply (f_equal snd) in Hremove. cbn [snd] in Hremove.
  rewrite <- Hremove. reflexivity.
Defined.

(** C10, as the code has it.  The presence check of [addItem] is a
    truthiness test, so a productId of 0 (a number that is present) is
    rejected with the "productId is required and must be a number"
    ValidationError, and so are -0 and NaN, while every other number
    passes the check, whatever its sign and whether or not it is an
    integer, and becomes the productId of a line item when the other
    fields are valid; -3 and 1.5 are such numbers. *)
Theorem productId_zero_rejected_other_numbers_accepted :
  (forall x cart name price quantity,
     is_zero x = true \/ is_nan x = true ->
     addItem (AddItemInput.mk (JsNumber x) name price quantity) cart
     = (Throw (mkAppError ValidationError
                 (js "productId is required and must be a number") 400 true), cart))
  /\ is_zero 0 = true
  /\ (forall x,
        is_zero x = false -> is_nan x = false ->
        ~ productId_rejected (JsNumber x)
        /\ forall cart name price quantity,
             ~ name_rejected name -> ~ price_rejected price ->
             ~ quantity_rejected quantity ->
             exists response cart',
               addItem (AddItemInput.mk (JsNumber x) name price quantity) cart
               = (Return response, cart')
               /\ exists item, item ∈ Cart.items cart' /\ CartItem.productId item = x)
  /\ (is_zero (-3) = false /\ is_nan (-3) = false)
  /\ (is_zero 1.5 = false /\ is_nan 1.5 = false /\ Number_isInteger 1.5 = false)
  /\ productId_rejected (JsNumber nan).
Proof.
  split; [|split; [|split; [|split; [|split]]]].
  - intros x cart name price quantity Hx. apply addItem_invalid.
    apply (proj1 (validateAddItemInput_cases _)). left. simpl.
    destruct Hx as [Hx|Hx]; rewrite Hx; [reflexivity|].
    destruct (is_zero x); reflexivity.
  - reflexivity.
  - intros x Hzero Hnan.
    assert (Hx : ~ productId_rejected (JsNumber x)).
    { intros [H|H]; [|apply H; reflexivity].
      simpl in H. rewrite Hzero, Hnan in H. discriminate H. }
    split; [exact Hx|].
    intros cart name price quantity Hname Hprice Hquantity.
    set (input := AddItemInput.mk (JsNumber x) name price quantity).
    assert (Hvalid : validateAddItemInput input = Return tt).
    { apply (proj2 (proj2 (proj2 (proj2 (validateAddItemInput_cases input)))));
        assumption. }
    destruct (first_or_absent x (Cart.items cart)) as [(i & item & Hfirst)|Habsent].
    + eexists. eexists. split; [exact (addItem_existing cart input i item Hvalid Hfirst)|].
      cbn [Cart.items]. destruct Hfirst as (Hi & Hsame & _).
      eexists. split.
      * apply (list_elem_of_lookup_2 _ i). apply list_lookup_insert_eq.
        exact (lookup_lt_Some _ _ _ Hi).
      * cbn [CartItem.set_quantity CartItem.productId].
        exact (number_eqb_eq_r _ _ Hsame Hzero).
    + eexists. eexists. split; [exact (addItem_new cart input Hvalid Habsent)|].
      cbn [Cart.items]. eexists. split.
      * apply elem_of_app. right. apply list_elem_of_singleton. reflexivity.
      * reflexivity.
  - split; vm_compute; reflexivity.
  - repeat split; vm_compute; reflexivity.
  - left. vm_compute. reflexivity.
Qed.

Lemma productId_zero_rejected_other_numbers_accepted_witness :
  (is_zero (-3) = false /\ is_nan (-3) = false)
  /\ exists response cart',
       addItem (AddItemInput.mk (JsNumber (-3)) (JsStr (js "Milk")) (JsNumber 2.5)
                  (JsNumber 2)) milk_cart
       = (Return response, cart')
       /\ exists item, item ∈ Cart.items cart' /\ CartItem.productId item = (-3)%float.
Proof.
  assert (H : is_zero (-3) = false /\ is_nan (-3) = false) by (split; reflexivity).
  split; [exact H|].
  destruct H as [Hzero Hnan].
  apply (proj2 (proj1 (proj2 (proj2 productId_zero_rejected_other_numbers_accepted))
                  (-3)%float Hzero Hnan)).
  - intros [Hbad|[Hbad|Hbad]]; [discriminate Hbad|apply Hbad; reflexivity|].
    vm_compute in Hbad. discriminate Hbad.
  - intros [Hbad|Hbad]; [apply Hbad; reflexivity|]. vm_compute in Hbad. discriminate Hbad.
  - intros [Hbad|[Hbad|Hbad]]; [apply Hbad; reflexivity| |];
      vm_compute in Hbad; discriminate Hbad.
Defined.

(** C10 as stated fails for one number: NaN has type number and is not
    zero, yet it is falsy, and [addItem] rejects it as it rejects 0. *)
Lemma NaN_productId_rejected :
  typeof (JsNumber nan) = "number"%string
  /\ (nan =? 0)%float = false
  /\ productId_rejected (JsNumber nan)
  /\ addItem milk_with_NaN_productId empty_cart
     = (Throw (mkAppError ValidationError
                 (js "productId is required and must be a number") 400 true),
        empty_cart).
Proof. repeat split; try (left; reflexivity). Qed.


(* ================================================================== *)
(** ** Further properties of the service *)
(* ================================================================== *)

(** *** Auxiliary lemmas *)

Lemma number_eqb_nan_r (x : float) : (x =? nan)%float = false.
Proof.
  rewrite FloatAxioms.eqb_spec.
  change (Prim2SF nan) with S754_nan.
  unfold SFeqb. destruct (Prim2SF x) as [s|s| |s m e]; reflexivity.
Qed.

Lemma NaN_absent (items : list CartItem.t) : productId_absent nan items.
Proof. intros item _. apply number_eqb_nan_r. Qed.

(** The line item appended by [addItem] is the first with its productId
    when no earlier one has it. *)
Lemma first_in_snoc (items : list CartItem.t) (item : CartItem.t) :
  is_nan (CartItem.productId item) = false ->
  productId_absent (CartItem.productId item) items ->
  first_with_productId (CartItem.productId item) (items ++ [item]) (length items) item.
Proof.
  intros Hnan Habsent. split; [|split].
  - rewrite lookup_app_r by lia. rewrite Nat.sub_diag. reflexivity.
  - apply number_eqb_refl. exact Hnan.
  - intros j other Hj Hother. rewrite lookup_app_l in Hother by exact Hj.
    apply Habsent. exact (list_elem_of_lookup_2 _ _ _ Hother).
Qed.

Lemma delete_snoc {A : Type} (l : list A) (x : A) : delete (length l) (l ++ [x]) = l.
Proof.
  induction l as [|a l IH]; simpl; [reflexivity|]. f_equal. exact IH.
Qed.

(** In a cart that keeps the invariant, deleting the first line item with
    a productId leaves none with it. *)
Lemma absent_after_delete (cart : Cart.t) (productId : float) (i : nat) (item : CartItem.t) :
  cart_invariant cart ->
  first_with_productId productId (Cart.items cart) i item ->
  productId_absent productId (delete i (Cart.items cart)).
Proof.
  intros Hinv (Hi & Hsame & _) other Hother.
  destruct (has_productId productId other) eqn:E; [exfalso|reflexivity].
  apply list_elem_of_lookup_1 in Hother as (j & Hj).
  pose proof Hinv as [Hnodup Htruthy].
  assert (Hfrom : exists k, k <> i /\ Cart.items cart !! k = Some other).
  { destruct (Nat.lt_ge_cases j i) as [Hlt|Hge].
    - exists j. split; [lia|]. rewrite <- Hj. symmetry.
      apply list_lookup_delete_lt. exact Hlt.
    - exists (S j). split; [lia|]. rewrite <- Hj. symmetry.
      apply list_lookup_delete_ge. exact Hge. }
  destruct Hfrom as (k & Hki & Hk).
  apply Hki.
  assert (Hz : forall it n, Cart.items cart !! n = Some it ->
                            is_zero (CartItem.productId it) = false).
  { intros it n Hn. pose proof (Forall_lookup_1 _ _ _ _ Htruthy Hn) as Ht.
    apply truthy_number in Ht. tauto. }
  unfold has_productId in *.
  apply number_eqb_eq in E; [|exact (Hz _ _ Hk)].
  apply number_eqb_eq in Hsame; [|exact (Hz _ _ Hi)].
  apply (NoDup_lookup _ k i productId Hnodup).
  - rewrite list_lookup_fmap, Hk. simpl. f_equal. exact E.
  - rewrite list_lookup_fmap, Hi. simpl. f_equal. exact Hsame.
Qed.

Lemma updated_idempotent (updates : UpdateItemInput.t) (item : CartItem.t) :
  updated updates (updated updates item) = updated updates item.
Proof.
  unfold updated. cbn [CartItem.productId CartItem.name CartItem.price CartItem.quantity].
  destruct (is_defined (UpdateItemInput.price updates));
    destruct (is_defined (UpdateItemInput.quantity updates)); reflexivity.
Qed.

Lemma calculateItemCount_snoc (items : list CartItem.t) (item : CartItem.t) :
  calculateItemCount (Cart.mk (items ++ [item]))
  = (calculateItemCount (Cart.mk items) + CartItem.quantity item)%float.
Proof. unfold calculateItemCount. cbn [Cart.items]. rewrite fold_left_app. reflexivity. Qed.

Lemma validateUpdateInput_price_ok (updates : UpdateItemInput.t) :
  validateUpdateInput updates = Return tt ->
  is_defined (UpdateItemInput.price updates) = true ->
  (as_number (UpdateItemInput.price updates) <=? 0)%float = false.
Proof.
  unfold validateUpdateInput. intros Hvalid Hdefined. rewrite Hdefined in Hvalid.
  destruct (as_number (UpdateItemInput.price updates) <=? 0)%float; [|reflexivity].
  rewrite orb_true_r in Hvalid. simpl in Hvalid.
  repeat match type of Hvalid with
         | context [if ?b then _ else _] => destruct b
         end; discriminate Hvalid.
Qed.

Lemma stored_ok_new (input : AddItemInput.t) :
  validateAddItemInput input = Return tt ->
  stored_item_ok
    (CartItem.mk (as_number (AddItemInput.productId input))
       (trim (as_string (AddItemInput.name input)))
       (as_number (AddItemInput.price input))
       (as_number (AddItemInput.quantity input))).
Proof.
  intros Hvalid.
  destruct (validateAddItemInput_ok_inv _ Hvalid)
    as (pid & nm & pr & q & -> & Hpid & Hname & Hprice & _).
  cbn [AddItemInput.productId AddItemInput.name AddItemInput.price AddItemInput.quantity
       as_number as_string].
  destruct (trim_spec nm) as (pre & suf & _ & _ & _ & Hhead & Hlast).
  unfold stored_item_ok. cbn [CartItem.productId CartItem.name CartItem.price].
  repeat split; assumption.
Qed.

Lemma stored_ok_updated (updates : UpdateItemInput.t) (item : CartItem.t) :
  validateUpdateInput updates = Return tt ->
  stored_item_ok item -> stored_item_ok (updated updates item).
Proof.
  intros Hvalid (Hid & Hname & Hhead & Hlast & Hprice).
  unfold stored_item_ok, updated.
  cbn [CartItem.productId CartItem.name CartItem.price].
  repeat split; try assumption.
  destruct (is_defined (UpdateItemInput.price updates)) eqn:Hdefined; [|exact Hprice].
  exact (validateUpdateInput_price_ok updates Hvalid Hdefined).
Qed.

Section StoredItems.

Variable Number_toString : float -> JsString.

Lemma step_stored_ok (cart : Cart.t) (op : Operation) :
  Forall stored_item_ok (Cart.items cart) ->
  Forall stored_item_ok (Cart.items (step Number_toString cart op)).
Proof.
  intros Hok. destruct cart as [items]. cbn [Cart.items] in Hok.
  destruct op as [|input|productId updates|productId| |env]; cbn [step].
  - exact Hok.
  - destruct (validateAddItemInput input) as [[]|e] eqn:Hvalid.
    + destruct (first_or_absent (as_number (AddItemInput.productId input)) items)
        as [(i & item & Hfirst)|Habsent].
      * rewrite (addItem_existing (Cart.mk items) input i item Hvalid Hfirst).
        cbn [snd Cart.items]. destruct Hfirst as (Hi & _).
        apply Forall_insert; [exact Hok|].
        exact (Forall_lookup_1 _ _ _ _ Hok Hi).
      * rewrite (addItem_new (Cart.mk items) input Hvalid Habsent).
        cbn [snd Cart.items]. apply Forall_app. split; [exact Hok|].
        constructor; [exact (stored_ok_new input Hvalid)|constructor].
    + rewrite (addItem_invalid (Cart.mk items) input e Hvalid). exact Hok.
  - destruct (validateUpdateInput updates) as [[]|e] eqn:Hvalid.
    + destruct (first_or_absent productId items) as [(i & item & Hfirst)|Habsent].
      * rewrite (updateItem_found _ (Cart.mk items) _ _ i item Hvalid Hfirst).
        cbn [snd Cart.items]. destruct Hfirst as (Hi & _).
        apply Forall_insert; [exact Hok|].
        apply (stored_ok_updated updates item Hvalid).
        exact (Forall_lookup_1 _ _ _ _ Hok Hi).
      * rewrite (updateItem_not_found _ (Cart.mk items) _ _ Hvalid Habsent). exact Hok.
    + rewrite (updateItem_invalid _ (Cart.mk items) _ _ _ Hvalid). exact Hok.
  - destruct (first_or_absent productId items) as [(i & item & Hfirst)|Habsent].
    + rewrite (removeItem_found _ (Cart.mk items) _ i item Hfirst).
      cbn [snd Cart.items]. apply Forall_delete. exact Hok.
    + rewrite (removeItem_not_found _ (Cart.mk items) _ Habsent). exact Hok.
  - constructor.
  - destruct items as [|item items].
    + rewrite checkout_empty by reflexivity. exact Hok.
    + rewrite checkout_nonempty by discriminate. constructor.
Qed.

Lemma fold_step_stored_ok (ops : list Operation) (cart : Cart.t) :
  Forall stored_item_ok (Cart.items cart) ->
  Forall stored_item_ok (Cart.items (fold_left (step Number_toString) ops cart)).
Proof.
  revert cart. induction ops as [|op ops IH]; intros cart Hok; simpl.
  - exact Hok.
  - apply IH. apply step_stored_ok. exact Hok.
Qed.

End StoredItems.

(** *** The properties *)

(** X1.  [clearCart] answers every cart with the empty snapshot and leaves
    the empty cart; calling it again changes nothing; and after it, as
    after a successful [checkout], [checkout] throws its BadRequestError
    and the cart stays empty. *)
Theorem emptied_cart_behaviour
    (Number_toString : float -> JsString) (env env' : CheckoutEnv.t) (cart : Cart.t) :
  clearCart cart = (Return (CartResponse.mk [] 0 0), Cart.mk [])
  /\ clearCart (snd (clearCart cart)) = clearCart cart
  /\ throws_with BadRequestError (js "Cannot checkout with an empty cart")
       (checkout Number_toString env (snd (clearCart cart))) (Cart.mk [])
  /\ (forall summary cart',
        checkout Number_toString env cart = (Return summary, cart') ->
        throws_with BadRequestError (js "Cannot checkout with an empty cart")
          (checkout Number_toString env' cart') (Cart.mk [])).
Proof.
  split; [|split; [|split]].
  - rewrite clearCart_spec, getCart_empty. reflexivity.
  - reflexivity.
  - eexists. split; [rewrite clearCart_spec; cbn [snd]; apply checkout_empty; reflexivity|].
    split; reflexivity.
  - intros summary cart' Hcheckout.
    destruct cart as [[|item items]].
    + rewrite checkout_empty in Hcheckout by reflexivity. discriminate Hcheckout.
    + rewrite checkout_nonempty in Hcheckout by discriminate.
      injection Hcheckout as _ <-.
      eexists. split; [apply checkout_empty; reflexivity|]. split; reflexivity.
Qed.

Lemma emptied_cart_behaviour_witness :
  checkout integer_toString an_env milk_cart
  = (Return (CheckoutResponse.mk (js "ORD-1764300000000-123e4567")
               (Cart.items milk_cart) 5 2 (js "2025-11-28T03:20:00.000Z")),
     Cart.mk [])
  /\ throws_with BadRequestError (js "Cannot checkout with an empty cart")
       (checkout integer_toString an_env (Cart.mk [])) (Cart.mk []).
Proof.
  assert (H : checkout integer_toString an_env milk_cart
              = (Return (CheckoutResponse.mk (js "ORD-1764300000000-123e4567")
                           (Cart.items milk_cart) 5 2 (js "2025-11-28T03:20:00.000Z")),
                 Cart.mk []))
    by (vm_compute; reflexivity).
  split; [exact H|].
  exact (proj2 (proj2 (proj2
           (emptied_cart_behaviour integer_toString an_env an_env milk_cart))) _ _ H).
Defined.

(** X2.  Adding a product that the cart does not hold and then removing
    it by its productId gives back the cart as it was, and [removeItem]
    returns the snapshot of that cart. *)
Theorem addItem_then_removeItem_restores
    (Number_toString : float -> JsString) (cart : Cart.t) (input : AddItemInput.t) :
  validateAddItemInput input = Return tt ->
  productId_absent (as_number (AddItemInput.productId input)) (Cart.items cart) ->
  removeItem Number_toString (as_number (AddItemInput.productId input))
    (snd (addItem input cart))
  = (Return (getCart cart), cart).
Proof.
  intros Hvalid Habsent.
  rewrite (addItem_new cart input Hvalid Habsent). cbn [snd].
  destruct (validateAddItemInput_ok_inv _ Hvalid) as (pid & nm & pr & q & -> & Hpid & _).
  cbn [AddItemInput.productId AddItemInput.name AddItemInput.price AddItemInput.quantity
       as_number as_string] in *.
  apply truthy_number in Hpid as [_ Hnan].
  set (item := CartItem.mk pid (trim nm) pr q).
  pose proof (first_in_snoc (Cart.items cart) item Hnan Habsent) as Hfirst.
  rewrite (removeItem_found Number_toString (Cart.mk (Cart.items cart ++ [item])) pid
             (length (Cart.items cart)) item Hfirst).
  cbn [Cart.items]. rewrite delete_snoc. destruct cart. reflexivity.
Qed.

Lemma addItem_then_removeItem_restores_witness :
  validateAddItemInput bread = Return tt
  /\ productId_absent (as_number (AddItemInput.productId bread)) (Cart.items milk_cart)
  /\ removeItem integer_toString 2 (snd (addItem bread milk_cart))
     = (Return (getCart milk_cart), milk_cart).
Proof.
  assert (Hvalid : validateAddItemInput bread = Return tt) by (vm_compute; reflexivity).
  assert (Habsent : productId_absent (as_number (AddItemInput.productId bread))
                      (Cart.items milk_cart)).
  { intros item Hitem. apply list_elem_of_singleton in Hitem. subst item.
    vm_compute. reflexivity. }
  split; [exact Hvalid|]. split; [exact Habsent|].
  exact (addItem_then_removeItem_restores integer_toString milk_cart bread Hvalid Habsent).
Defined.

(** X3.  A product that [addItem] has just accepted is in the cart: a
    valid [updateItem] and a [removeItem] on its productId both return,
    they do not throw. *)
Theorem added_item_can_be_updated_and_removed
    (Number_toString : float -> JsString)
    (cart : Cart.t) (input : AddItemInput.t) (updates : UpdateItemInput.t) :
  validateAddItemInput input = Return tt ->
  validateUpdateInput updates = Return tt ->
  (exists response cart',
     updateItem Number_toString (as_number (AddItemInput.productId input)) updates
       (snd (addItem input cart))
     = (Return response, cart'))
  /\ (exists response cart',
        removeItem Number_toString (as_number (AddItemInput.productId input))
          (snd (addItem input cart))
        = (Return response, cart')).
Proof.
  intros Hvalid Hupdates.
  destruct (addItem_then_present cart input Hvalid) as (i & item & Hfirst).
  split.
  - eexists. eexists.
    exact (updateItem_found Number_toString _ _ updates i item Hupdates Hfirst).
  - eexists. eexists.
    exact (removeItem_found Number_toString _ _ i item Hfirst).
Qed.

Lemma added_item_can_be_updated_and_removed_witness :
  validateAddItemInput milk = Return tt
  /\ validateUpdateInput quantity_5 = Return tt
  /\ exists response cart',
       updateItem integer_toString 1 quantity_5 (snd (addItem milk milk_cart))
       = (Return response, cart').
Proof.
  assert (Hvalid : validateAddItemInput milk = Return tt) by (vm_compute; reflexivity).
  assert (Hupdates : validateUpdateInput quantity_5 = Return tt)
    by (vm_compute; reflexivity).
  split; [exact Hvalid|]. split; [exact Hupdates|].
  exact (proj1 (added_item_can_be_updated_and_removed integer_toString milk_cart milk
                  quantity_5 Hvalid Hupdates)).
Defined.

(** X4.  In a cart reached by calls of the service, a product that
    [removeItem] has removed is gone: removing the same productId again
    throws the NotFoundError and leaves the cart as the first call left
    it. *)
Theorem removeItem_twice_is_not_found
    (Number_toString : float -> JsString) (ops : list Operation) (productId : float)
    (response : CartResponse.t) (cart' : Cart.t) :
  removeItem Number_toString productId (run Number_toString ops) = (Return response, cart') ->
  removeItem Number_toString productId cart'
  = (Throw (mkAppError NotFoundError (not_found_message Number_toString productId) 404 true),
     cart').
Proof.
  intros Hremove.
  pose proof (run_invariant Number_toString ops) as Hinv.
  set (cart := run Number_toString ops) in *.
  destruct (first_or_absent productId (Cart.items cart)) as [(i & item & Hfirst)|Habsent].
  - rewrite (removeItem_found Number_toString cart productId i item Hfirst) in Hremove.
    injection Hremove as _ <-.
    apply removeItem_not_found. cbn [Cart.items].
    exact (absent_after_delete cart productId i item Hinv Hfirst).
  - rewrite (removeItem_not_found Number_toString cart productId Habsent) in Hremove.
    discriminate Hremove.
Qed.

Lemma removeItem_twice_is_not_found_witness :
  removeItem integer_toString 1 (run integer_toString [OpAddItem milk])
  = (Return (CartResponse.mk [] 0 0), Cart.mk [])
  /\ removeItem integer_toString 1 (Cart.mk [])
     = (Throw (mkAppError NotFoundError (js "Item with productId 1 not found in cart")
                 404 true),
        Cart.mk []).
Proof.
  assert (H : removeItem integer_toString 1 (run integer_toString [OpAddItem milk])
              = (Return (CartResponse.mk [] 0 0), Cart.mk []))
    by (vm_compute; reflexivity).
  split; [exact H|].
  exact (removeItem_twice_is_not_found integer_toString [OpAddItem milk] 1 _ _ H).
Defined.

(** What each method throws, and that the cart is then unchanged. *)
Lemma validation_errors_operational :
  (forall input e, validateAddItemInput input = Throw e -> isOperational e = true)
  /\ (forall updates e, validateUpdateInput updates = Throw e -> isOperational e = true).
Proof.
  split.
  - intros input e. unfold validateAddItemInput.
    repeat match goal with
           | |- context [if ?b then _ else _] => destruct b
           end; intros [= <-]; reflexivity.
  - intros updates e. unfold validateUpdateInput.
    repeat match goal with
           | |- context [if ?b then _ else _] => destruct b
           end; intros [= <-]; reflexivity.
Qed.

Lemma addItem_throws (cart cart' : Cart.t) (input : AddItemInput.t) (e : AppError) :
  addItem input cart = (Throw e, cart') ->
  cart' = cart /\ errorClass e = ValidationError
  /\ statusCode e = 400%Z /\ isOperational e = true.
Proof.
  intros H. destruct (validateAddItemInput input) as [[]|e'] eqn:Hvalid.
  - destruct (first_or_absent (as_number (AddItemInput.productId input)) (Cart.items cart))
      as [(i & item & Hfirst)|Habsent].
    + rewrite (addItem_existing cart input i item Hvalid Hfirst) in H. discriminate H.
    + rewrite (addItem_new cart input Hvalid Habsent) in H. discriminate H.
  - rewrite (addItem_invalid cart input e' Hvalid) in H. injection H as <- <-.
    destruct (validateAddItemInput_throws input e' Hvalid) as [Hclass Hstatus].
    pose proof (proj1 validation_errors_operational input e' Hvalid). tauto.
Qed.

Section Throws.

Variable Number_toString : float -> JsString.

Lemma updateItem_throws (cart cart' : Cart.t) (productId : float)
    (updates : UpdateItemInput.t) (e : AppError) :
  updateItem Number_toString productId updates cart = (Throw e, cart') ->
  cart' = cart /\ isOperational e = true
  /\ ((errorClass e = ValidationError /\ statusCode e = 400%Z)
      \/ (errorClass e = NotFoundError /\ statusCode e = 404%Z)).
Proof.
  intros H. destruct (validateUpdateInput updates) as [[]|e'] eqn:Hvalid.
  - destruct (first_or_absent productId (Cart.items cart))
      as [(i & item & Hfirst)|Habsent].
    + rewrite (updateItem_found _ cart productId updates i item Hvalid Hfirst) in H.
      discriminate H.
    + rewrite (updateItem_not_found _ cart productId updates Hvalid Habsent) in H.
      injection H as <- <-. split; [reflexivity|]. split; [reflexivity|].
      right. split; reflexivity.
  - rewrite (updateItem_invalid _ cart productId updates e' Hvalid) in H.
    injection H as <- <-.
    destruct (validateUpdateInput_throws updates e' Hvalid) as [Hclass Hstatus].
    pose proof (proj2 validation_errors_operational updates e' Hvalid). tauto.
Qed.

Lemma removeItem_throws (cart cart' : Cart.t) (productId : float) (e : AppError) :
  removeItem Number_toString productId cart = (Throw e, cart') ->
  cart' = cart /\ errorClass e = NotFoundError
  /\ statusCode e = 404%Z /\ isOperational e = true.
Proof.
  intros H.
  destruct (first_or_absent productId (Cart.items cart)) as [(i & item & Hfirst)|Habsent].
  - rewrite (removeItem_found _ cart productId i item Hfirst) in H. discriminate H.
  - rewrite (removeItem_not_found _ cart productId Habsent) in H.
    injection H as <- <-. repeat split.
Qed.

Lemma checkout_throws (cart cart' : Cart.t) (env : CheckoutEnv.t) (e : AppError) :
  checkout Number_toString env cart = (Throw e, cart') ->
  cart' = cart /\ errorClass e = BadRequestError
  /\ statusCode e = 400%Z /\ isOperational e = true.
Proof.
  intros H. destruct cart as [[|item items]].
  - rewrite checkout_empty in H by reflexivity. injection H as <- <-. repeat split.
  - rewrite checkout_nonempty in H by discriminate. discriminate H.
Qed.

End Throws.

(** X5.  What the methods throw.  [addItem] throws only ValidationErrors,
    [updateItem] only ValidationErrors and NotFoundErrors, [removeItem]
    only NotFoundErrors and [checkout] only BadRequestErrors; every such
    error is operational and carries status 400, or 404 for a
    NotFoundError; and the cart after the throw is the cart before the
    call.  [clearCart] never throws. *)
Theorem thrown_errors
    (Number_toString : float -> JsString) (cart cart' : Cart.t) (e : AppError) :
  (forall input,
     addItem input cart = (Throw e, cart') ->
     cart' = cart /\ errorClass e = ValidationError
     /\ statusCode e = 400%Z /\ isOperational e = true)
  /\ (forall productId updates,
        updateItem Number_toString productId updates cart = (Throw e, cart') ->
        cart' = cart /\ isOperational e = true
        /\ ((errorClass e = ValidationError /\ statusCode e = 400%Z)
            \/ (errorClass e = NotFoundError /\ statusCode e = 404%Z)))
  /\ (forall productId,
        removeItem Number_toString productId cart = (Throw e, cart') ->
        cart' = cart /\ errorClass e = NotFoundError
        /\ statusCode e = 404%Z /\ isOperational e = true)
  /\ (forall env,
        checkout Number_toString env cart = (Throw e, cart') ->
        cart' = cart /\ errorClass e = BadRequestError
        /\ statusCode e = 400%Z /\ isOperational e = true)
  /\ clearCart cart <> (Throw e, cart').
Proof.
  split; [|split; [|split; [|split]]].
  - intros input. apply addItem_throws.
  - intros productId updates. apply updateItem_throws.
  - intros productId. apply removeItem_throws.
  - intros env. apply checkout_throws.
  - rewrite clearCart_spec. discriminate.
Qed.

Lemma thrown_errors_witness :
  removeItem integer_toString 999 milk_cart
  = (Throw (mkAppError NotFoundError (js "Item with productId 999 not found in cart")
              404 true), milk_cart)
  /\ statusCode (mkAppError NotFoundError (js "Item with productId 999 not found in cart")
                   404 true) = 404%Z.
Proof.
  assert (H : removeItem integer_toString 999 milk_cart
              = (Throw (mkAppError NotFoundError
                          (js "Item with productId 999 not found in cart") 404 true),
                 milk_cart))
    by (vm_compute; reflexivity).
  split; [exact H|].
  exact (proj1 (proj2 (proj2
           (proj1 (proj2 (proj2 (thrown_errors integer_toString milk_cart milk_cart _)))
              999%float H)))).
Defined.

(** X6.  Every line item of a cart reached by calls of the service was
    validated when it was stored: its productId is neither a zero nor NaN,
    its name is not empty and neither starts nor ends with white space,
    and [price <= 0] is false for its price. *)
Theorem stored_items_are_validated
    (Number_toString : float -> JsString) (ops : list Operation) (item : CartItem.t) :
  item ∈ Cart.items (run Number_toString ops) ->
  is_zero (CartItem.productId item) = false
  /\ is_nan (CartItem.productId item) = false
  /\ CartItem.name item <> []
  /\ trimmed_of (CartItem.name item) (CartItem.name item)
  /\ (CartItem.price item <=? 0)%float = false.
Proof.
  intros Hitem.
  assert (Hall : Forall stored_item_ok (Cart.items (run Number_toString ops))).
  { apply fold_step_stored_ok. constructor. }
  rewrite Forall_forall in Hall.
  destruct (Hall item Hitem) as (Hid & Hname & Hhead & Hlast & Hprice).
  apply truthy_number in Hid as [Hzero Hnan].
  repeat split; try assumption.
  exists [], []. rewrite app_nil_r. simpl.
  repeat split; try assumption; constructor.
Qed.

Lemma stored_items_are_validated_witness :
  CartItem.mk 1 (js "Milk") 2.5 2 ∈ Cart.items (run integer_toString [OpAddItem milk])
  /\ CartItem.name (CartItem.mk 1 (js "Milk") 2.5 2) <> [].
Proof.
  assert (H : CartItem.mk 1 (js "Milk") 2.5 2
              ∈ Cart.items (run integer_toString [OpAddItem milk])) by left.
  split; [exact H|].
  exact (proj1 (proj2 (proj2 (stored_items_are_validated integer_toString _ _ H)))).
Defined.

(** X7.  [addItem] never removes or reorders: when it returns, every line
    item that was in the cart is at the same index with the same
    productId, name and price, and the list is longer by at most one. *)
Theorem addItem_keeps_existing_items
    (cart cart' : Cart.t) (input : AddItemInput.t) (response : CartResponse.t) :
  addItem input cart = (Return response, cart') ->
  (forall j item,
     Cart.items cart !! j = Some item ->
     exists item',
       Cart.items cart' !! j = Some item'
       /\ CartItem.productId item' = CartItem.productId item
       /\ CartItem.name item' = CartItem.name item
       /\ CartItem.price item' = CartItem.price item)
  /\ (length (Cart.items cart) <= length (Cart.items cart')
      <= S (length (Cart.items cart)))%nat.
Proof.
  intros H. destruct (validateAddItemInput input) as [[]|e] eqn:Hvalid.
  - destruct (first_or_absent (as_number (AddItemInput.productId input)) (Cart.items cart))
      as [(i & item0 & Hfirst)|Habsent].
    + rewrite (addItem_existing cart input i item0 Hvalid Hfirst) in H.
      injection H as _ <-. cbn [Cart.items]. destruct Hfirst as (Hi & _). split.
      * intros j item Hj. destruct (decide (i = j)) as [->|Hne].
        -- rewrite Hi in Hj. injection Hj as <-. eexists. split.
           ++ apply list_lookup_insert_eq. exact (lookup_lt_Some _ _ _ Hi).
           ++ repeat split.
        -- exists item. rewrite list_lookup_insert_ne by exact Hne. repeat split.
           exact Hj.
      * rewrite length_insert. lia.
    + rewrite (addItem_new cart input Hvalid Habsent) in H.
      injection H as _ <-. cbn [Cart.items]. split.
      * intros j item Hj. exists item. repeat split.
        rewrite lookup_app_l by exact (lookup_lt_Some _ _ _ Hj). exact Hj.
      * rewrite length_app. simpl. lia.
  - rewrite (addItem_invalid cart input e Hvalid) in H. discriminate H.
Qed.

Lemma addItem_keeps_existing_items_witness :
  addItem bread milk_cart = (Return (getCart milk_bread_cart), milk_bread_cart)
  /\ exists item',
       Cart.items milk_bread_cart !! 0%nat = Some item'
       /\ CartItem.productId item' = 1%float.
Proof.
  assert (H : addItem bread milk_cart = (Return (getCart milk_bread_cart), milk_bread_cart))
    by (vm_compute; reflexivity).
  split; [exact H|].
  destruct (proj1 (addItem_keeps_existing_items _ _ _ _ H) 0%nat
              (CartItem.mk 1 (js "Milk") 2.5 2) eq_refl)
    as (item' & Hitem' & Hid & _).
  exists item'. split; [exact Hitem'|exact Hid].
Defined.

(** X8.  [updateItem] is idempotent: when an update has been applied,
    applying the same update to the same productId again returns the same
    snapshot and leaves the cart as it is. *)
Theorem updateItem_idempotent
    (Number_toString : float -> JsString) (cart cart' : Cart.t) (productId : float)
    (updates : UpdateItemInput.t) (response : CartResponse.t) :
  updateItem Number_toString productId updates cart = (Return response, cart') ->
  updateItem Number_toString productId updates cart' = (Return response, cart').
Proof.
  intros H. destruct (validateUpdateInput updates) as [[]|e] eqn:Hvalid.
  - destruct (first_or_absent productId (Cart.items cart)) as [(i & item & Hfirst)|Habsent].
    + rewrite (updateItem_found _ cart productId updates i item Hvalid Hfirst) in H.
      injection H as <- <-.
      destruct Hfirst as (Hi & Hsame & Hbefore).
      pose proof (lookup_lt_Some _ _ _ Hi) as Hlt.
      set (cart1 := Cart.mk (<[i := updated updates item]> (Cart.items cart))).
      assert (Hfirst1 : first_with_productId productId (Cart.items cart1) i
                          (updated updates item)).
      { split; [|split].
        - apply list_lookup_insert_eq. exact Hlt.
        - exact Hsame.
        - intros j other Hj Hother. cbn [cart1 Cart.items] in Hother.
          rewrite list_lookup_insert_ne in Hother by lia.
          exact (Hbefore j other Hj Hother). }
      rewrite (updateItem_found _ cart1 productId updates i _ Hvalid Hfirst1).
      cbn [cart1 Cart.items].
      rewrite updated_idempotent, list_insert_insert_eq. reflexivity.
    + rewrite (updateItem_not_found _ cart productId updates Hvalid Habsent) in H.
      discriminate H.
  - rewrite (updateItem_invalid _ cart productId updates e Hvalid) in H. discriminate H.
Qed.

Lemma updateItem_idempotent_witness :
  exists response cart',
    updateItem integer_toString 1 quantity_5 milk_cart = (Return response, cart')
    /\ updateItem integer_toString 1 quantity_5 cart' = (Return response, cart').
Proof.
  eexists. eexists.
  assert (H : updateItem integer_toString 1 quantity_5 milk_cart
              = (Return (getCart (Cart.mk [CartItem.mk 1 (js "Milk") 2.5 5])),
                 Cart.mk [CartItem.mk 1 (js "Milk") 2.5 5]))
    by (vm_compute; reflexivity).
  split; [exact H|].
  exact (updateItem_idempotent integer_toString _ _ _ _ _ H).
Defined.

(** X9.  An update that supplies no quantity leaves every quantity, and
    with it the itemCount of the snapshot, as it was; an update that
    supplies no price leaves every price as it was. *)
Theorem updateItem_leaves_the_other_field
    (Number_toString : float -> JsString) (cart cart' : Cart.t) (productId : float)
    (updates : UpdateItemInput.t) (response : CartResponse.t) :
  updateItem Number_toString productId updates cart = (Return response, cart') ->
  (UpdateItemInput.quantity updates = JsUndefined ->
   CartItem.quantity <$> Cart.items cart' = CartItem.quantity <$> Cart.items cart
   /\ CartResponse.itemCount response = CartResponse.itemCount (getCart cart))
  /\ (UpdateItemInput.price updates = JsUndefined ->
      CartItem.price <$> Cart.items cart' = CartItem.price <$> Cart.items cart).
Proof.
  intros H. destruct (validateUpdateInput updates) as [[]|e] eqn:Hvalid.
  - destruct (first_or_absent productId (Cart.items cart)) as [(i & item & Hfirst)|Habsent].
    + rewrite (updateItem_found _ cart productId updates i item Hvalid Hfirst) in H.
      injection H as <- <-. destruct Hfirst as (Hi & _). cbn [Cart.items].
      split.
      * intros Hq.
        assert (Hsame : CartItem.quantity
                          <$> <[i := updated updates item]> (Cart.items cart)
                        = CartItem.quantity <$> Cart.items cart).
        { rewrite list_fmap_insert. apply list_insert_id.
          rewrite list_lookup_fmap, Hi. unfold updated. rewrite Hq. reflexivity. }
        split; [exact Hsame|].
        rewrite !getCart_sums. cbn [CartResponse.itemCount Cart.items].
        rewrite Hsame. reflexivity.
      * intros Hp. rewrite list_fmap_insert. apply list_insert_id.
        rewrite list_lookup_fmap, Hi. unfold updated. rewrite Hp. reflexivity.
    + rewrite (updateItem_not_found _ cart productId updates Hvalid Habsent) in H.
      discriminate H.
  - rewrite (updateItem_invalid _ cart productId updates e Hvalid) in H. discriminate H.
Qed.

Lemma updateItem_leaves_the_other_field_witness :
  exists response cart',
    updateItem integer_toString 1 quantity_5 milk_cart = (Return response, cart')
    /\ UpdateItemInput.price quantity_5 = JsUndefined
    /\ CartItem.price <$> Cart.items cart' = CartItem.price <$> Cart.items milk_cart.
Proof.
  eexists. eexists.
  assert (H : updateItem integer_toString 1 quantity_5 milk_cart
              = (Return (getCart (Cart.mk [CartItem.mk 1 (js "Milk") 2.5 5])),
                 Cart.mk [CartItem.mk 1 (js "Milk") 2.5 5]))
    by (vm_compute; reflexivity).
  split; [exact H|]. split; [reflexivity|].
  exact (proj2 (updateItem_leaves_the_other_field integer_toString _ _ _ _ _ H) eq_refl).
Defined.

(** X10.  Adding a product that the cart does not hold makes the list one
    longer and raises the itemCount of the snapshot by the quantity added
    (one binary64 addition to the previous itemCount). *)
Theorem addItem_new_raises_itemCount
    (cart : Cart.t) (input : AddItemInput.t) :
  validateAddItemInput input = Return tt ->
  productId_absent (as_number (AddItemInput.productId input)) (Cart.items cart) ->
  exists response cart',
    addItem input cart = (Return response, cart')
    /\ length (Cart.items cart') = S (length (Cart.items cart))
    /\ CartResponse.itemCount response
       = (CartResponse.itemCount (getCart cart)
          + as_number (AddItemInput.quantity input))%float.
Proof.
  intros Hvalid Habsent. eexists. eexists.
  split; [exact (addItem_new cart input Hvalid Habsent)|].
  cbn [Cart.items]. split.
  - rewrite length_app. simpl. lia.
  - unfold getCart. cbn [CartResponse.itemCount].
    rewrite calculateItemCount_snoc. destruct cart. reflexivity.
Qed.

Lemma addItem_new_raises_itemCount_witness :
  validateAddItemInput bread = Return tt
  /\ productId_absent (as_number (AddItemInput.productId bread)) (Cart.items milk_cart)
  /\ exists response cart',
       addItem bread milk_cart = (Return response, cart')
       /\ CartResponse.itemCount response = (2 + 1)%float.
Proof.
  assert (Hvalid : validateAddItemInput bread = Return tt) by (vm_compute; reflexivity).
  assert (Habsent : productId_absent (as_number (AddItemInput.productId bread))
                      (Cart.items milk_cart)).
  { intros item Hitem. apply list_elem_of_singleton in Hitem. subst item.
    vm_compute. reflexivity. }
  split; [exact Hvalid|]. split; [exact Habsent|].
  destruct (addItem_new_raises_itemCount milk_cart bread Hvalid Habsent)
    as (response & cart' & Hadd & _ & Hcount).
  exists response, cart'. split; [exact Hadd|exact Hcount].
Defined.

(** X11.  No line item is ever found for the productId NaN, which [===]
    identifies with nothing: on every cart [removeItem(NaN)] throws the
    NotFoundError, and so does [updateItem(NaN, updates)] once the update
    itself is valid; the cart is left as it was. *)
Theorem NaN_productId_is_never_found
    (Number_toString : float -> JsString) (cart : Cart.t) :
  removeItem Number_toString nan cart
  = (Throw (mkAppError NotFoundError
              (js "Item with productId " ++ Number_toString nan ++ js " not found in cart")
              404 true), cart)
  /\ forall updates,
       validateUpdateInput updates = Return tt ->
       updateItem Number_toString nan updates cart
       = (Throw (mkAppError NotFoundError
                   (js "Item with productId " ++ Number_toString nan
                      ++ js " not found in cart") 404 true), cart).
Proof.
  split.
  - exact (removeItem_not_found Number_toString cart nan (NaN_absent _)).
  - intros updates Hvalid.
    exact (updateItem_not_found Number_toString cart nan updates Hvalid (NaN_absent _)).
Qed.

Lemma NaN_productId_is_never_found_witness :
  validateUpdateInput quantity_5 = Return tt
  /\ updateItem integer_toString nan quantity_5 milk_cart
     = (Throw (mkAppError NotFoundError (js "Item with productId NaN not found in cart")
                 404 true), milk_cart).
Proof.
  assert (Hvalid : validateUpdateInput quantity_5 = Return tt) by (vm_compute; reflexivity).
  split; [exact Hvalid|].
  exact (proj2 (NaN_productId_is_never_found integer_toString milk_cart) quantity_5 Hvalid).
Defined.

(* ================================================================== *)
(** ** Properties of the HTTP layer *)
(* ================================================================== *)

Lemma parseInt10_without_integer (s : JsString) :
  has_integer_prefix s = false -> parseInt10 s = nan.
Proof.
  unfold has_integer_prefix, parseInt10. intros H.
  destruct (trimStart s) as [|c rest]; [reflexivity|].
  destruct c as [|p]; [rewrite H; reflexivity|].
  do 6 (destruct p as [p|p|]; try (rewrite H; reflexivity)).
Qed.

Section HttpProperties.

Variable Number_toString : float -> JsString.
Variable TypeError_message : JsString.

Lemma respond_envelope {A : Type} (code : Z) (msg : option JsString) (wrap : A -> ApiData)
    (call : M A) (cart cart' : Cart.t) (outcome : Outcome) :
  respond code msg wrap call cart = (outcome, cart') ->
  (exists a,
     call cart = (Return a, cart')
     /\ outcome = Sent (HttpResponse.mk code (ApiResponse.mk true msg (Some (wrap a)) None)))
  \/ (exists e, call cart = (Throw e, cart') /\ outcome = Rejected (AppErrorThrown e)).
Proof.
  unfold respond. destruct (call cart) as [[a|e] cart1]; intros [= <- <-].
  - left. exists a. split; reflexivity.
  - right. exists e. split; reflexivity.
Qed.

(** What [serve] answers on each route, in terms of the call it makes. *)
Lemma serve_cases (env : CheckoutEnv.t) (route : Route) (req : Request.t)
    (cart cart' : Cart.t) (response : HttpResponse.t) :
  serve Number_toString TypeError_message env route req cart = (response, cart') ->
  (exists code msg payload,
     response = HttpResponse.mk code (ApiResponse.mk true msg (Some payload) None)
     /\ (code = 200%Z \/ code = 201%Z))
  \/ (cart' = cart
      /\ exists code msg,
           failure_envelope code msg response
           /\ (code = 400%Z \/ code = 404%Z
               \/ (code = 500%Z /\ Request.body req = None
                   /\ msg = js "Internal server error"
                   /\ (route = POST_cart \/ route = PUT_cart_productId)))).
Proof.
  unfold serve. intros H.
  destruct (controller_of Number_toString TypeError_message env route req cart)
    as [outcome cart1] eqn:Hc.
  assert (Hbody : forall cart0 : Cart.t,
             (Rejected (OtherError TypeError_message), cart0) = (outcome, cart1) ->
             cart0 = cart ->
             Request.body req = None ->
             route = POST_cart \/ route = PUT_cart_productId ->
             cart' = cart
             /\ exists code msg,
                  failure_envelope code msg response
                  /\ (code = 400%Z \/ code = 404%Z
                      \/ (code = 500%Z /\ Request.body req = None
                          /\ msg = js "Internal server error"
                          /\ (route = POST_cart \/ route = PUT_cart_productId)))).
  { intros cart0 [= <- <-] -> Hnone Hroute. injection H as <- <-.
    split; [reflexivity|]. eexists. eexists. split; [reflexivity|].
    right. right. repeat split; assumption. }
  assert (Hsent : forall code msg payload,
             outcome = Sent (HttpResponse.mk code
                               (ApiResponse.mk true msg (Some payload) None)) ->
             code = 200%Z \/ code = 201%Z ->
             exists code msg payload,
               response = HttpResponse.mk code (ApiResponse.mk true msg (Some payload) None)
               /\ (code = 200%Z \/ code = 201%Z)).
  { intros code msg payload -> Hcode. injection H as <- <-.
    exists code, msg, payload. split; [reflexivity|exact Hcode]. }
  assert (Hthrown : forall e,
             outcome = Rejected (AppErrorThrown e) -> cart1 = cart ->
             statusCode e = 400%Z \/ statusCode e = 404%Z ->
             cart' = cart
             /\ exists code msg,
                  failure_envelope code msg response
                  /\ (code = 400%Z \/ code = 404%Z
                      \/ (code = 500%Z /\ Request.body req = None
                          /\ msg = js "Internal server error"
                          /\ (route = POST_cart \/ route = PUT_cart_productId)))).
  { intros e -> -> Hstatus. injection H as <- <-.
    split; [reflexivity|]. exists (statusCode e), (message e). split; [reflexivity|].
    destruct Hstatus as [Hs|Hs]; rewrite Hs; [left|right; left]; reflexivity. }
  destruct route; cbn [controller_of] in Hc.
  - unfold getCart_controller in Hc.
    apply respond_envelope in Hc as [(a & Hcall & Hout)|(e & Hcall & Hout)].
    + left. exact (Hsent _ _ _ Hout (or_introl eq_refl)).
    + discriminate Hcall.
  - unfold addItem_controller in Hc. destruct (Request.body req) as [body|] eqn:Hb.
    + apply respond_envelope in Hc as [(a & Hcall & Hout)|(e & Hcall & Hout)].
      * left. exact (Hsent _ _ _ Hout (or_intror eq_refl)).
      * right. destruct (addItem_throws _ _ _ _ Hcall) as (Hcart & _ & Hstatus & _).
        exact (Hthrown e Hout Hcart (or_introl Hstatus)).
    + right. exact (Hbody cart Hc eq_refl eq_refl (or_introl eq_refl)).
  - unfold updateItem_controller in Hc. destruct (Request.body req) as [body|] eqn:Hb.
    + apply respond_envelope in Hc as [(a & Hcall & Hout)|(e & Hcall & Hout)].
      * left. exact (Hsent _ _ _ Hout (or_introl eq_refl)).
      * right.
        destruct (updateItem_throws _ _ _ _ _ _ Hcall) as (Hcart & _ & Hstatus).
        apply (Hthrown e Hout Hcart). tauto.
    + right. exact (Hbody cart Hc eq_refl eq_refl (or_intror eq_refl)).
  - unfold removeItem_controller in Hc.
    apply respond_envelope in Hc as [(a & Hcall & Hout)|(e & Hcall & Hout)].
    + left. exact (Hsent _ _ _ Hout (or_introl eq_refl)).
    + right. destruct (removeItem_throws _ _ _ _ _ Hcall) as (Hcart & _ & Hstatus & _).
      exact (Hthrown e Hout Hcart (or_intror Hstatus)).
  - unfold clearCart_controller in Hc.
    apply respond_envelope in Hc as [(a & Hcall & Hout)|(e & Hcall & Hout)].
    + left. exact (Hsent _ _ _ Hout (or_introl eq_refl)).
    + rewrite clearCart_spec in Hcall. discriminate Hcall.
  - unfold checkout_controller in Hc.
    apply respond_envelope in Hc as [(a & Hcall & Hout)|(e & Hcall & Hout)].
    + left. exact (Hsent _ _ _ Hout (or_introl eq_refl)).
    + right. destruct (checkout_throws _ _ _ _ _ Hcall) as (Hcart & _ & Hstatus & _).
      exact (Hthrown e Hout Hcart (or_introl Hstatus)).
Qed.

End HttpProperties.

(** X12.  Every response of a cart route is one of two envelopes: a
    success, with [success: true], a [data] payload, no [error] and status
    200 or 201; or a failure, with [success: false], no [data], an [error]
    whose statusCode is the HTTP status, 400, 404 or 500, and then the
    cart is the cart before the request. *)
Theorem responses_are_envelopes
    (Number_toString : float -> JsString) (TypeError_message : JsString)
    (env : CheckoutEnv.t) (route : Route) (req : Request.t)
    (cart cart' : Cart.t) (response : HttpResponse.t) :
  serve Number_toString TypeError_message env route req cart = (response, cart') ->
  (ApiResponse.success (HttpResponse.json response) = true
   /\ (HttpResponse.status response = 200%Z \/ HttpResponse.status response = 201%Z)
   /\ ApiResponse.data (HttpResponse.json response) <> None
   /\ ApiResponse.error (HttpResponse.json response) = None)
  \/ (ApiResponse.success (HttpResponse.json response) = false
      /\ cart' = cart
      /\ ApiResponse.data (HttpResponse.json response) = None
      /\ ApiResponse.message (HttpResponse.json response) = None
      /\ (exists msg,
            ApiResponse.error (HttpResponse.json response)
            = Some (ApiError.mk msg (HttpResponse.status response)))
      /\ (HttpResponse.status response = 400%Z \/ HttpResponse.status response = 404%Z
          \/ HttpResponse.status response = 500%Z)).
Proof.
  intros H.
  destruct (serve_cases _ _ _ _ _ _ _ _ H)
    as [(code & msg & payload & -> & Hcode)|(Hcart & code & msg & Henvelope & Hcode)].
  - left. cbn. repeat split; [exact Hcode|discriminate].
  - right. unfold failure_envelope in Henvelope. subst response. cbn.
    repeat split; try assumption.
    + exists msg. reflexivity.
    + tauto.
Qed.

Lemma responses_are_envelopes_witness :
  serve integer_toString [] an_env POST_cart post_milk empty_cart
  = (HttpResponse.mk 201
       (ApiResponse.mk true (Some (js "Item added to cart"))
          (Some (CartData (getCart milk_cart))) None),
     milk_cart)
  /\ (HttpResponse.status
        (HttpResponse.mk 201
           (ApiResponse.mk true (Some (js "Item added to cart"))
              (Some (CartData (getCart milk_cart))) None)) = 200%Z
      \/ HttpResponse.status
           (HttpResponse.mk 201
              (ApiResponse.mk true (Some (js "Item added to cart"))
                 (Some (CartData (getCart milk_cart))) None)) = 201%Z).
Proof.
  assert (H : serve integer_toString [] an_env POST_cart post_milk empty_cart
              = (HttpResponse.mk 201
                   (ApiResponse.mk true (Some (js "Item added to cart"))
                      (Some (CartData (getCart milk_cart))) None),
                 milk_cart))
    by (vm_compute; reflexivity).
  split; [exact H|].
  destruct (responses_are_envelopes _ _ _ _ _ _ _ _ H) as [(_ & Hcode & _)|(Hfalse & _)].
  - exact Hcode.
  - discriminate Hfalse.
Defined.

(** X13.  Status 500 is answered exactly when an error that is not an
    [AppError] reaches the error handler: an error that a middleware
    before the controller passes on (a body the JSON parser rejects, a
    path parameter that cannot be decoded), on any route, or the TypeError
    of [POST /cart] or [PUT /cart/:productId] destructuring a body that is
    undefined.  No error of the cart service is answered with 500.  The
    message sent with a 500 is "Internal server error", whatever the
    message of the error was, and the cart is unchanged. *)
Theorem internal_error_exactly_for_other_errors
    (Number_toString : float -> JsString) (TypeError_message : JsString)
    (env : CheckoutEnv.t) (route : Route) (arrival : Arrival)
    (cart cart' : Cart.t) (response : HttpResponse.t) :
  serve_arrival Number_toString TypeError_message env route arrival cart
  = (response, cart') ->
  (HttpResponse.status response = 500%Z
   <-> ((exists message, arrival = MiddlewareError message)
        \/ (exists req,
              arrival = ReachesController req
              /\ Request.body req = None
              /\ (route = POST_cart \/ route = PUT_cart_productId))))
  /\ (HttpResponse.status response = 500%Z ->
      failure_envelope 500 (js "Internal server error") response /\ cart' = cart).
Proof.
  intros H. destruct arrival as [req|message]; cbn [serve_arrival] in H.
  - assert (Hwithout : Request.body req = None ->
                       route = POST_cart \/ route = PUT_cart_productId ->
                       response
                       = HttpResponse.mk 500
                           (ApiResponse.mk false None None
                              (Some (ApiError.mk (js "Internal server error") 500)))
                       /\ cart' = cart).
    { intros Hbody Hroute. unfold serve in H.
      destruct Hroute as [-> | ->]; cbn [controller_of] in H;
        unfold addItem_controller, updateItem_controller in H;
        rewrite Hbody in H; injection H as <- <-; split; reflexivity. }
    destruct (serve_cases _ _ _ _ _ _ _ _ H)
      as [(code & msg & payload & -> & Hcode)|(Hcart & code & msg & Henvelope & Hcode)].
    + split.
      * split.
        -- cbn. intros Hstatus. lia.
        -- intros [(message & Hm)|(req' & [= <-] & Hbody & Hroute)]; [discriminate Hm|].
           destruct (Hwithout Hbody Hroute) as [Hresponse _]. discriminate Hresponse.
      * cbn. intros Hstatus. lia.
    + unfold failure_envelope in Henvelope. subst response. cbn. split.
      * split.
        -- intros ->. right. exists req.
           destruct Hcode as [Hc|[Hc|(_ & Hbody & _ & Hroute)]]; try discriminate Hc.
           split; [reflexivity|]. split; assumption.
        -- intros [(message & Hm)|(req' & [= <-] & Hbody & Hroute)]; [discriminate Hm|].
           destruct (Hwithout Hbody Hroute) as [Hresponse _].
           injection Hresponse as -> _. reflexivity.
      * intros ->.
        destruct Hcode as [Hc|[Hc|(_ & _ & -> & _)]]; try discriminate Hc.
        split; [reflexivity|exact Hcart].
  - injection H as <- <-. cbn. split.
    + split; [intros _; left; exists message; reflexivity|reflexivity].
    + intros _. split; reflexivity.
Qed.

Lemma internal_error_exactly_for_other_errors_witness :
  serve_arrival integer_toString (js "Cannot destructure") an_env GET_cart
    (MiddlewareError (js "Unexpected token")) milk_cart
  = (HttpResponse.mk 500
       (ApiResponse.mk false None None
          (Some (ApiError.mk (js "Internal server error") 500))),
     milk_cart)
  /\ (HttpResponse.status
        (HttpResponse.mk 500
           (ApiResponse.mk false None None
              (Some (ApiError.mk (js "Internal server error") 500)))) = 500%Z
      <-> ((exists message,
              MiddlewareError (js "Unexpected token") = MiddlewareError message)
           \/ (exists req,
                 MiddlewareError (js "Unexpected token") = ReachesController req
                 /\ Request.body req = None
                 /\ (GET_cart = POST_cart \/ GET_cart = PUT_cart_productId)))).
Proof.
  assert (H : serve_arrival integer_toString (js "Cannot destructure") an_env GET_cart
                (MiddlewareError (js "Unexpected token")) milk_cart
              = (HttpResponse.mk 500
                   (ApiResponse.mk false None None
                      (Some (ApiError.mk (js "Internal server error") 500))),
                 milk_cart))
    by reflexivity.
  split; [exact H|].
  exact (proj1 (internal_error_exactly_for_other_errors _ _ _ _ _ _ _ _ H)).
Defined.

(** X14.  The productId parameter of a route is not validated: when it
    does not start, after white space and a sign, with a decimal digit,
    [parseInt] gives NaN, and [DELETE /cart/:productId] answers 404 with
    the not-found message for NaN on every cart; so does
    [PUT /cart/:productId] when the fields of its body are valid. *)
Theorem productId_parameter_without_integer
    (Number_toString : float -> JsString) (TypeError_message : JsString)
    (env : CheckoutEnv.t) (req : Request.t) (cart : Cart.t) :
  has_integer_prefix (Request.params_productId req) = false ->
  serve Number_toString TypeError_message env DELETE_cart_productId req cart
  = (HttpResponse.mk 404
       (ApiResponse.mk false None None
          (Some (ApiError.mk
                   (js "Item with productId " ++ Number_toString nan
                      ++ js " not found in cart") 404))),
     cart)
  /\ forall body,
       Request.body req = Some body ->
       validateUpdateInput
         (UpdateItemInput.mk (RequestBody.quantity body) (RequestBody.price body))
       = Return tt ->
       serve Number_toString TypeError_message env PUT_cart_productId req cart
       = (HttpResponse.mk 404
            (ApiResponse.mk false None None
               (Some (ApiError.mk
                        (js "Item with productId " ++ Number_toString nan
                           ++ js " not found in cart") 404))),
          cart).
Proof.
  intros Hparam. pose proof (parseInt10_without_integer _ Hparam) as Hnan.
  split.
  - unfold serve. cbn [controller_of]. unfold removeItem_controller, respond.
    rewrite Hnan, (removeItem_not_found Number_toString cart nan (NaN_absent _)).
    reflexivity.
  - intros body Hbody Hvalid.
    unfold serve. cbn [controller_of]. unfold updateItem_controller, respond.
    rewrite Hbody, Hnan.
    rewrite (updateItem_not_found Number_toString cart nan _ Hvalid (NaN_absent _)).
    reflexivity.
Qed.

Lemma productId_parameter_without_integer_witness :
  has_integer_prefix (Request.params_productId request_for_abc) = false
  /\ serve integer_toString [] an_env DELETE_cart_productId request_for_abc milk_cart
     = (HttpResponse.mk 404
          (ApiResponse.mk false None None
             (Some (ApiError.mk (js "Item with productId NaN not found in cart") 404))),
        milk_cart).
Proof.
  split; [reflexivity|].
  exact (proj1 (productId_parameter_without_integer integer_toString [] an_env
                  request_for_abc milk_cart eq_refl)).
Defined.

(** X15.  A successful response carries the state the request leaves:
    on every route but checkout its [data] is the snapshot of the cart
    after the request, with status 201 for [POST /cart] and 200 otherwise,
    and [GET /cart] leaves the cart unchanged; on [POST /cart/checkout] it
    is the order summary, with the items, total and itemCount of the cart
    before the request, and the cart is empty afterwards. *)
Theorem successful_response_carries_state
    (Number_toString : float -> JsString) (TypeError_message : JsString)
    (env : CheckoutEnv.t) (route : Route) (req : Request.t)
    (cart cart' : Cart.t) (response : HttpResponse.t) :
  serve Number_toString TypeError_message env route req cart = (response, cart') ->
  ApiResponse.success (HttpResponse.json response) = true ->
  match route with
  | POST_cart_checkout =>
      HttpResponse.status response = 200%Z
      /\ cart' = Cart.mk []
      /\ exists order,
           ApiResponse.data (HttpResponse.json response) = Some (OrderData order)
           /\ CheckoutResponse.items order = Cart.items cart
           /\ CheckoutResponse.total order = CartResponse.total (getCart cart)
           /\ CheckoutResponse.itemCount order = CartResponse.itemCount (getCart cart)
  | POST_cart =>
      HttpResponse.status response = 201%Z
      /\ ApiResponse.data (HttpResponse.json response) = Some (CartData (getCart cart'))
  | GET_cart =>
      HttpResponse.status response = 200%Z
      /\ ApiResponse.data (HttpResponse.json response) = Some (CartData (getCart cart'))
      /\ cart' = cart
  | _ =>
      HttpResponse.status response = 200%Z
      /\ ApiResponse.data (HttpResponse.json response) = Some (CartData (getCart cart'))
  end.
Proof.
  unfold serve. intros H Hsuccess.
  destruct (controller_of Number_toString TypeError_message env route req cart)
    as [[sent|err] cart1] eqn:Hc;
    injection H as <- <-; [|discriminate Hsuccess].
  destruct route; cbn [controller_of] in Hc.
  - unfold getCart_controller in Hc.
    apply respond_envelope in Hc as [(a & Hcall & [= ->])|(e & _ & Hout)];
      [|discriminate Hout].
    injection Hcall as <- <-. repeat split.
  - unfold addItem_controller in Hc.
    destruct (Request.body req) as [body|]; [|discriminate Hc].
    apply respond_envelope in Hc as [(a & Hcall & [= ->])|(e & _ & Hout)];
      [|discriminate Hout].
    cbn. rewrite (addItem_returns_snapshot _ _ _ _ Hcall). split; reflexivity.
  - unfold updateItem_controller in Hc.
    destruct (Request.body req) as [body|]; [|discriminate Hc].
    apply respond_envelope in Hc as [(a & Hcall & [= ->])|(e & _ & Hout)];
      [|discriminate Hout].
    cbn. rewrite (updateItem_returns_snapshot _ _ _ _ _ _ Hcall). split; reflexivity.
  - unfold removeItem_controller in Hc.
    apply respond_envelope in Hc as [(a & Hcall & [= ->])|(e & _ & Hout)];
      [|discriminate Hout].
    cbn. rewrite (removeItem_returns_snapshot _ _ _ _ _ Hcall). split; reflexivity.
  - unfold clearCart_controller in Hc.
    apply respond_envelope in Hc as [(a & Hcall & [= ->])|(e & _ & Hout)];
      [|discriminate Hout].
    rewrite clearCart_spec in Hcall. injection Hcall as <- <-. split; reflexivity.
  - unfold checkout_controller in Hc.
    apply respond_envelope in Hc as [(a & Hcall & [= ->])|(e & _ & Hout)];
      [|discriminate Hout].
    cbn. split; [reflexivity|].
    destruct (checkout_returns_totals _ _ _ _ _ Hcall) as (Hitems & Htotal & Hcount).
    split.
    + destruct cart as [[|item items]].
      * rewrite checkout_empty in Hcall by reflexivity. discriminate Hcall.
      * rewrite checkout_nonempty in Hcall by discriminate.
        injection Hcall as _ <-. reflexivity.
    + exists a. repeat split; assumption.
Qed.

Lemma successful_response_carries_state_witness :
  serve integer_toString [] an_env POST_cart post_milk empty_cart
  = (HttpResponse.mk 201
       (ApiResponse.mk true (Some (js "Item added to cart"))
          (Some (CartData (getCart milk_cart))) None),
     milk_cart)
  /\ HttpResponse.status
       (HttpResponse.mk 201
          (ApiResponse.mk true (Some (js "Item added to cart"))
             (Some (CartData (getCart milk_cart))) None)) = 201%Z.
Proof.
  assert (H : serve integer_toString [] an_env POST_cart post_milk empty_cart
              = (HttpResponse.mk 201
                   (ApiResponse.mk true (Some (js "Item added to cart"))
                      (Some (CartData (getCart milk_cart))) None),
                 milk_cart))
    by (vm_compute; reflexivity).
  split; [exact H|].
  exact (proj1 (successful_response_carries_state _ _ _ _ _ _ _ _ H eq_refl)).
Defined.
